(** * Relationship Garden: the Decay Engine

    A shallow embedding of [backend/app/core/decay.py] and of the part of
    [backend/app/core/config.py] it reads, with the properties the
    specification states about them.

    Numbers.  A Python [float] is modelled by a real number: arithmetic is
    exact, and only finite values exist.  What the source can observe of
    binary64 beyond that is kept: [math.exp] raises [OverflowError] when its
    result leaves the binary64 range, [math.log] raises [ValueError] outside
    its domain, and [/] raises [ZeroDivisionError] on a zero divisor.
    Products and quotients are taken exactly, so an intermediate product or
    quotient that would itself leave the binary64 range (overflow to
    infinity, underflow to zero) is outside the model; the theorems that
    could reach that region carry a bound that keeps them out of it
    ([Spec.in_float_range], a health score at most 1).

    Time.  A [datetime] is its wall-clock reading in microseconds since
    0001-01-01T00:00:00 together with an optional fixed UTC offset
    ([tzinfo]); a [timedelta] is a number of microseconds. *)

From Stdlib Require Import Reals Lra Lia ZArith String.
From stdpp Require Import base strings gmap.

Open Scope R_scope.

(** ** Python runtime *)

Module Py.

Inductive exc : Type :=
  | OverflowError
  | ValueError
  | ZeroDivisionError
  | TypeError.

(** The outcome of evaluating an expression: a value, or a raised
    exception that propagates through the rest of the function body. *)
Inductive result (A : Type) : Type :=
  | Ok (a : A)
  | Raise (e : exc).

Arguments Ok {A} a.
Arguments Raise {A} e.

#[global] Instance result_ret : MRet result := fun A a => Ok a.

#[global] Instance result_bind : MBind result := fun A B k m =>
  match m with
  | Ok a => k a
  | Raise e => Raise e
  end.

(** Magnitude from which a result, rounded to nearest, is no longer a
    finite binary64 number. *)
Definition float_overflow : R := 2 ^ 1024 - 2 ^ 970.

(** [math.exp(x)]: "OverflowError for results that overflow (for example,
    exp(1000.0))". *)
Definition math_exp (x : R) : result R :=
  if Rle_dec float_overflow (exp x) then Raise OverflowError else Ok (exp x).

(** [math.log(x)], natural logarithm; [ValueError] unless [x > 0]. *)
Definition math_log (x : R) : result R :=
  if Rlt_dec 0 x then Ok (ln x) else Raise ValueError.

(** [a / b] on floats. *)
Definition truediv (a b : R) : result R :=
  if Req_dec_T b 0 then Raise ZeroDivisionError else Ok (a / b).

(** Built-in [max(a, b)] and [min(a, b)]: the first argument is kept
    unless the second is strictly larger (smaller). *)
Definition max (a b : R) : R := if Rgt_dec b a then b else a.
Definition min (a b : R) : R := if Rlt_dec b a then b else a.

(** Nearest integer, ties to the even one. *)
Definition round_half_even (x : R) : Z :=
  let f := Zfloor x in
  let r := x - IZR f in
  if Rlt_dec r (1 / 2) then f
  else if Rlt_dec (1 / 2) r then (f + 1)%Z
  else if Z.even f then f else (f + 1)%Z.

(** Built-in [round(x, ndigits)] on a float. *)
Definition round (x : R) (ndigits : nat) : R :=
  IZR (round_half_even (x * 10 ^ ndigits)) / 10 ^ ndigits.

(** *** datetime *)

Record datetime : Type := mk_datetime {
  ticks : Z;
  tzinfo : option Z
}.

Definition timedelta : Type := Z.

Definition timezone_utc : Z := 0.

(** [datetime.max] is 9999-12-31T23:59:59.999999, ordinal day 3652059. *)
Definition datetime_max_ticks : Z := 3652059 * 86400 * 1000000 - 1.

(** [datetime.now(timezone.utc)], given the reading of the clock. *)
Definition datetime_now (clock : Z) : datetime :=
  {| ticks := clock; tzinfo := Some timezone_utc |}.

(** [d.replace(tzinfo=tz)]: the wall-clock fields are kept as they are. *)
Definition replace_tzinfo (d : datetime) (tz : Z) : datetime :=
  {| ticks := ticks d; tzinfo := Some tz |}.

(** [a - b] on datetimes: both naive, or both aware (compared as UTC
    instants); mixing the two raises [TypeError].  A [tzinfo] is a fixed
    offset, as [datetime.timezone] objects are; for those, Python's
    wall-clock subtraction of two datetimes sharing one [tzinfo] object is
    the subtraction of their instants.  Zones whose offset varies
    ([zoneinfo]) are outside the model. *)
Definition datetime_sub (a b : datetime) : result timedelta :=
  match tzinfo a, tzinfo b with
  | None, None => Ok (ticks a - ticks b)%Z
  | Some oa, Some ob => Ok ((ticks a - oa) - (ticks b - ob))%Z
  | _, _ => Raise TypeError
  end.

(** [d + td]: wall-clock arithmetic, [tzinfo] kept; [OverflowError] when the
    result is not a representable date. *)
Definition datetime_add (d : datetime) (td : timedelta) : result datetime :=
  let t := (ticks d + td)%Z in
  if decide (0 <= t <= datetime_max_ticks)%Z
  then Ok {| ticks := t; tzinfo := tzinfo d |}
  else Raise OverflowError.

(** [td.total_seconds()]. *)
Definition total_seconds (td : timedelta) : R := IZR td / 1000000.

(** [timedelta(days=n)]. *)
Definition timedelta_days (n : Z) : timedelta := (n * 86400 * 1000000)%Z.

End Py.

Import Py.

(** ** backend/app/core/config.py *)

Module Config.

Record Settings : Type := mk_Settings {
  app_name : string;
  debug : bool;
  supabase_url : string;
  supabase_service_role_key : string;
  database_url : string;
  decay_rate_succulent : R;
  decay_rate_fern : R;
  decay_rate_orchid : R;
  decay_rate_bonsai : R;
  threshold_healthy : R;
  threshold_cooling : R;
  threshold_dormant : R
}.

(** [Settings()] with nothing overridden by the environment. *)
Definition default_settings : Settings := {|
  app_name := "Relationship Garden — Intelligence Service";
  debug := false;
  supabase_url := EmptyString;
  supabase_service_role_key := EmptyString;
  database_url := EmptyString;
  decay_rate_succulent := 0.0077;
  decay_rate_fern := 0.0231;
  decay_rate_orchid := 0.0495;
  decay_rate_bonsai := 0.0116;
  threshold_healthy := 0.7;
  threshold_cooling := 0.4;
  threshold_dormant := 0.1
|}.

(** [get_settings()]: the process-wide value is built on first use and
    returned unchanged afterwards.  [loaded] is what [Settings()] reads
    from the environment; the cache is the module global [_settings]. *)
Definition get_settings (loaded : Settings) (cache : option Settings)
  : Settings * option Settings :=
  match cache with
  | None => (loaded, Some loaded)
  | Some s => (s, Some s)
  end.

End Config.

Import Config.

(** ** backend/app/core/decay.py

    The functions take the [Settings] value that [get_settings()] hands
    them, and [calculate_health] the clock it reads when [now] is omitted. *)

Module Decay.

Definition calculate_health (clock : Z) (last_interaction_at : datetime)
    (decay_rate : R) (now : option datetime) (initial_health : R) : result R :=
  let now :=
    match now with
    | None => datetime_now clock
    | Some n => n
    end in
  let last_interaction_at :=
    match tzinfo last_interaction_at with
    | None => replace_tzinfo last_interaction_at timezone_utc
    | Some _ => last_interaction_at
    end in
  delta ← datetime_sub now last_interaction_at;
  let days_elapsed := Py.max (total_seconds delta / 86400) 0 in
  e ← math_exp (- decay_rate * days_elapsed);
  let health := initial_health * e in
  mret (Py.max 0 (Py.min 1 health)).

(** The default of the [initial_health] parameter. *)
Definition default_initial_health : R := 1.

Definition classify_status (settings : Settings) (health_score : R) : string :=
  if Rge_dec health_score (threshold_healthy settings) then "thriving"
  else if Rge_dec health_score (threshold_cooling settings) then "cooling"
  else if Rge_dec health_score (threshold_dormant settings) then "at_risk"
  else "dormant".

Definition days_until_threshold (current_health decay_rate threshold : R)
  : result (option R) :=
  if Rle_dec current_health threshold then mret None
  else if Rle_dec decay_rate 0 then mret None
  else
    q ← truediv threshold current_health;
    l ← math_log q;
    t ← truediv (- l) decay_rate;
    mret (Some (Py.round t 1)).

(** The default of the [threshold] parameter. *)
Definition default_threshold : R := 0.5.

Definition get_default_decay_rate (settings : Settings) (tier : string) : R :=
  let rates : gmap string R :=
    <["bonsai" := decay_rate_bonsai settings]>
    (<["orchid" := decay_rate_orchid settings]>
    (<["fern" := decay_rate_fern settings]>
    (<["succulent" := decay_rate_succulent settings]> ∅))) in
  default (decay_rate_fern settings) (rates !! tier).

End Decay.

Import Decay.

(** ** scripts/seed_garden.py

    The seeding script draws random numbers and writes to the database;
    what is embedded is its tables, [get_growth_stage], and the values the
    loop body of [seed] computes for one contact, the random draws and the
    table entries it reads being arguments. *)

Module Seed.

Definition DECAY_RATES : gmap string R :=
  <["succulent" := 0.0077]>
  (<["bonsai" := 0.0116]>
  (<["fern" := 0.0231]>
  (<["orchid" := 0.0495]> ∅))).

Definition DAYS_AGO_RANGES : gmap string (Z * Z) :=
  <["succulent" := (10, 200)%Z]>
  (<["bonsai" := (5, 120)%Z]>
  (<["fern" := (0, 90)%Z]>
  (<["orchid" := (0, 45)%Z]> ∅))).

Definition INTERACTION_RANGES : gmap string (Z * Z) :=
  <["succulent" := (0, 10)%Z]>
  (<["bonsai" := (1, 20)%Z]>
  (<["fern" := (2, 30)%Z]>
  (<["orchid" := (5, 60)%Z]> ∅))).

Definition get_growth_stage (total : Z) : string :=
  if decide (50 <= total)%Z then "ancient"
  else if decide (25 <= total)%Z then "mature"
  else if decide (10 <= total)%Z then "sapling"
  else if decide (3 <= total)%Z then "sprout"
  else "seed".

(** Line 156: [decay_rate = DECAY_RATES[tier] * random.uniform(0.8, 1.2)],
    [base_rate] being the table entry and [u] the draw. *)
Definition drawn_decay_rate (base_rate u : R) : R := base_rate * u.

(** Lines 164-165: the health stored for the contact. *)
Definition seeded_health (decay_rate days_ago : R) : result R :=
  health ← math_exp (- decay_rate * days_ago);
  mret (Py.max 0 (Py.min 1 (Py.round health 4))).

(** Line 186: the decay rate stored for the contact. *)
Definition seeded_decay_rate (decay_rate : R) : R := Py.round decay_rate 4.

(** Line 196: [num_sample_interactions = min(total_interactions, 3)]. *)
Definition num_sample_interactions (total_interactions : Z) : Z :=
  if decide (3 < total_interactions)%Z then 3%Z else total_interactions.

(** Line 233: the status printed beside the contact. *)
Definition printed_status (health : R) : string :=
  if Rge_dec health 0.7 then "thriving"
  else if Rge_dec health 0.4 then "cooling"
  else if Rge_dec health 0.1 then "at_risk"
  else "dormant".

(** [int(x)] on a float: truncation towards zero. *)
Definition int_of_float (x : R) : Z :=
  if Rle_dec 0 x then Zfloor x else Zceil x.

(** [c * n] for a one-character string [c]: [n] copies, none when [n] is
    negative.  A string is the list of its code points. *)
Definition str_mul (c : N) (n : Z) : list N := repeat c (Z.to_nat n).

Definition FULL_BLOCK : N := 9608.
Definition LIGHT_SHADE : N := 9617.

(** Line 234: the twenty-cell bar printed beside the contact. *)
Definition bar (health : R) : list N :=
  str_mul FULL_BLOCK (int_of_float (health * 20)) ++
  str_mul LIGHT_SHADE (20 - int_of_float (health * 20)).

End Seed.

(** ** backend/app/models/schemas.py

    The response models, with the constraints pydantic checks when one is
    built: an enumeration field takes one of its values, and
    [health_score] carries [Field(ge=0.0, le=1.0)]. *)

Module Schemas.

Definition TierEnum : list string := ["succulent"; "fern"; "orchid"; "bonsai"].

Definition GrowthStageEnum : list string :=
  ["seed"; "sprout"; "sapling"; "mature"; "ancient"].

Definition StatusEnum : list string := ["thriving"; "cooling"; "at_risk"; "dormant"].

(** What a request handler can fail with: an exception of the engine, or
    pydantic's [ValidationError]. *)
Inductive error : Type :=
  | EngineError (e : exc)
  | ValidationError.

Inductive outcome (A : Type) : Type :=
  | Done (a : A)
  | Failed (e : error).

Arguments Done {A} a.
Arguments Failed {A} e.

#[global] Instance outcome_ret : MRet outcome := fun A a => Done a.

#[global] Instance outcome_bind : MBind outcome := fun A B k m =>
  match m with
  | Done a => k a
  | Failed e => Failed e
  end.

(** A call into the engine from a handler. *)
Definition engine {A : Type} (r : result A) : outcome A :=
  match r with
  | Ok a => Done a
  | Raise e => Failed (EngineError e)
  end.

Record PlantHealth : Type := mk_PlantHealth {
  ph_id : string;
  ph_name : string;
  ph_tier : string;
  ph_growth_stage : string;
  ph_health_score : R;
  ph_status : string;
  ph_days_until_cooling : option R;
  ph_last_interaction_at : datetime;
  ph_total_interactions : Z;
  ph_is_favorite : bool;
  ph_tags : list string
}.

(** [PlantHealth(...)]: the fields are validated, then the object exists. *)
Definition PlantHealth_new (p : PlantHealth) : outcome PlantHealth :=
  if decide (ph_tier p ∈ TierEnum) then
    if decide (ph_growth_stage p ∈ GrowthStageEnum) then
      if Rge_dec (ph_health_score p) 0 then
        if Rle_dec (ph_health_score p) 1 then
          if decide (ph_status p ∈ StatusEnum) then Done p
          else Failed ValidationError
        else Failed ValidationError
      else Failed ValidationError
    else Failed ValidationError
  else Failed ValidationError.

Record GardenResponse : Type := mk_GardenResponse {
  gr_user_id : string;
  gr_total_plants : Z;
  gr_avg_health : R;
  gr_needs_attention : Z;
  gr_plants : list PlantHealth;
  gr_refreshed_at : datetime
}.

Record RefreshResult : Type := mk_RefreshResult {
  rr_user_id : string;
  rr_contacts_updated : Z;
  rr_avg_health : R;
  rr_refreshed_at : datetime
}.

End Schemas.

Import Schemas.

(** ** backend/app/api/v1/garden.py

    The database is the external collaborator.  A row of the [contacts]
    table is a record of the columns the handlers read, its
    [last_interaction_at] being the timestamp [datetime.fromisoformat]
    reads from the stored text; an optional column is one the handler
    reads with [contact.get(key, default)], [None] standing for a key the
    row does not carry.  The rows are therefore those whose timestamp text
    parses and whose columns hold values of their declared types: on a
    NULL timestamp [fromisoformat] raises TypeError, on malformed text
    ValueError, and a NULL in another column is refused by the response
    model; such rows are not values of [contact], and the statements below
    do not speak of them.  [fromisoformat] yields a naive timestamp or one
    with a fixed offset, which is what [Py.datetime] holds.  [get_garden]
    takes the rows its query returned; [refresh_garden] takes the table
    and the rows its query returned, and hands back the table as its
    updates left it.  Both read the clock once, and that reading is the
    [now] of every call into the engine.  The running sum [total_health]
    and its quotient are taken over the reals; a binary64 sum differs from
    it by rounding, which may move the four-place [avg_health] by one unit
    in its last place, so [avg_health] is stated within a tolerance. *)

Module Garden.

Record contact : Type := mk_contact {
  id : string;
  user_id : string;
  name : string;
  tier : string;
  growth_stage : string;
  health_score : R;
  decay_rate : R;
  last_interaction_at : datetime;
  total_interactions : Z;
  is_favorite : option bool;
  tags : option (list string);
  is_archived : bool
}.

(** The filters both queries share:
    [.eq("user_id", user_id).eq("is_archived", False)]. *)
Definition selected (uid : string) (c : contact) : Prop :=
  user_id c = uid /\ is_archived c = false.

#[global] Instance selected_dec (uid : string) (c : contact) : Decision (selected uid c).
Proof. unfold selected. apply _. Defined.

(** [.update({"health_score": health}).eq("id", key)] on the table. *)
Definition update_health_score (table : list contact) (key : string) (health : R)
  : list contact :=
  map (fun c =>
         if decide (id c = key)
         then mk_contact (id c) (user_id c) (name c) (tier c) (growth_stage c)
                health (decay_rate c) (last_interaction_at c)
                (total_interactions c) (is_favorite c) (tags c) (is_archived c)
         else c)
      table.

(** [status in ("at_risk", "dormant")]. *)
Definition needs_care (status : string) : bool :=
  bool_decide (status = "at_risk") || bool_decide (status = "dormant").

(** One turn of the loop of [get_garden], lines 58-81, on the three
    accumulators [plants], [total_health] and [needs_attention]. *)
Definition garden_step (settings : Settings) (clock : Z) (now : datetime)
    (acc : list PlantHealth * R * Z) (c : contact)
  : outcome (list PlantHealth * R * Z) :=
  let '(plants, total_health, needs_attention) := acc in
  let last_interaction := last_interaction_at c in
  health ← engine (calculate_health clock last_interaction (decay_rate c) (Some now)
                     default_initial_health);
  let status := classify_status settings health in
  cooling_days ← engine (days_until_threshold health (decay_rate c) 0.4);
  let needs_attention :=
    if needs_care status then (needs_attention + 1)%Z else needs_attention in
  let total_health := total_health + health in
  plant ← PlantHealth_new {|
    ph_id := id c;
    ph_name := name c;
    ph_tier := tier c;
    ph_growth_stage := growth_stage c;
    ph_health_score := Py.round health 4;
    ph_status := status;
    ph_days_until_cooling := cooling_days;
    ph_last_interaction_at := last_interaction;
    ph_total_interactions := total_interactions c;
    ph_is_favorite := default false (is_favorite c);
    ph_tags := default [] (tags c)
  |};
  mret (plants ++ [plant], total_health, needs_attention).

Fixpoint garden_loop (settings : Settings) (clock : Z) (now : datetime)
    (acc : list PlantHealth * R * Z) (data : list contact)
  : outcome (list PlantHealth * R * Z) :=
  match data with
  | [] => mret acc
  | c :: data =>
      acc ← garden_step settings clock now acc c;
      garden_loop settings clock now acc data
  end.

Definition get_garden (settings : Settings) (clock : Z) (uid : string)
    (data : list contact) : outcome GardenResponse :=
  let now := datetime_now clock in
  '(plants, total_health, needs_attention) ←
    garden_loop settings clock now ([], 0, 0%Z) data;
  let total := Z.of_nat (length plants) in
  avg ← (if decide (0 < total)%Z
         then q ← engine (truediv total_health (IZR total)); mret (Py.round q 4)
         else mret 0);
  mret {|
    gr_user_id := uid;
    gr_total_plants := total;
    gr_avg_health := avg;
    gr_needs_attention := needs_attention;
    gr_plants := plants;
    gr_refreshed_at := now
  |}.

(** The loop of [refresh_garden], lines 119-129: the table is written to
    as the loop goes, so what an exception leaves behind is the table with
    the updates made before it. *)
Fixpoint refresh_loop (clock : Z) (now : datetime) (table : list contact)
    (total_health : R) (updated : Z) (data : list contact)
  : list contact * result (R * Z) :=
  match data with
  | [] => (table, Ok (total_health, updated))
  | c :: data =>
      match calculate_health clock (last_interaction_at c) (decay_rate c) (Some now)
              default_initial_health with
      | Raise e => (table, Raise e)
      | Ok health =>
          let health := Py.round health 4 in
          let total_health := total_health + health in
          let table := update_health_score table (id c) health in
          let updated := (updated + 1)%Z in
          refresh_loop clock now table total_health updated data
      end
  end.

Definition refresh_garden (clock : Z) (uid : string) (table data : list contact)
  : list contact * result RefreshResult :=
  let now := datetime_now clock in
  match refresh_loop clock now table 0 0%Z data with
  | (table, Raise e) => (table, Raise e)
  | (table, Ok (total_health, updated)) =>
      (table,
       avg ← (if decide (0 < updated)%Z
              then q ← truediv total_health (IZR updated); mret (Py.round q 4)
              else mret 0);
       mret {|
         rr_user_id := uid;
         rr_contacts_updated := updated;
         rr_avg_health := avg;
         rr_refreshed_at := now
       |})
  end.

End Garden.

(** ** The specification's vocabulary *)

Module Spec.

(** The UTC instant a timestamp denotes, in microseconds; a timestamp
    without time zone is read as being in UTC already. *)
Definition instant (d : datetime) : Z :=
  match tzinfo d with
  | None => ticks d
  | Some offset => (ticks d - offset)%Z
  end.

(** The value [now] has after the defaulting of lines 45-46. *)
Definition now_of (clock : Z) (now : option datetime) : datetime :=
  match now with
  | None => datetime_now clock
  | Some n => n
  end.

Definition aware (d : datetime) : Prop := tzinfo d <> None.

(** [elapsed_days = max(0, (now - last_interaction_at) in days)]. *)
Definition elapsed_days (last_interaction_at now : datetime) : R :=
  Rmax 0 (IZR (instant now - instant last_interaction_at) / 1000000 / 86400).

Definition clamp01 (x : R) : R := Rmax 0 (Rmin 1 x).

(** A magnitude well inside the binary64 range: a quantity so bounded is
    a finite float however it is rounded. *)
Definition in_float_range (x : R) : Prop := Rabs x <= 2 ^ 1023.

(** [health = initial_health * e^(-decay_rate * elapsed_days)], clamped. *)
Definition health (initial_health decay_rate days : R) : R :=
  clamp01 (initial_health * exp (- (decay_rate * days))).


(** Thresholds as the data model has them: ordered, within [0, 1]. *)
Definition thresholds_ordered (s : Settings) : Prop :=
  0 <= threshold_dormant s /\
  threshold_dormant s <= threshold_cooling s /\
  threshold_cooling s <= threshold_healthy s /\
  threshold_healthy s <= 1.

Definition known_tiers : list string := ["succulent"; "fern"; "orchid"; "bonsai"].

Definition statuses : list string := ["thriving"; "cooling"; "at_risk"; "dormant"].

End Spec.

(** ** Vocabulary for the seeding script and the handlers *)

Module GardenSpec.

(** Statuses and growth stages in their order, worst first. *)
Definition status_rank (status : string) : nat :=
  if decide (status = "thriving") then 3
  else if decide (status = "cooling") then 2
  else if decide (status = "at_risk") then 1
  else 0.

Definition stage_rank (stage : string) : nat :=
  if decide (stage = "ancient") then 4
  else if decide (stage = "mature") then 3
  else if decide (stage = "sapling") then 2
  else if decide (stage = "sprout") then 1
  else 0.

(** What successive calls of [get_settings()] return, the environment
    holding [loads] at the time of each call. *)
Fixpoint settings_seen (cache : option Settings) (loads : list Settings)
  : list Settings :=
  match loads with
  | [] => []
  | loaded :: loads =>
      let '(s, cache) := get_settings loaded cache in
      s :: settings_seen cache loads
  end.

(** The half-lives the comments of [Settings] give for the default rates
    (config.py, lines 24-27), in days. *)
Definition documented_half_life : list (string * Z) :=
  [("succulent", 90%Z); ("fern", 30%Z); ("orchid", 14%Z); ("bonsai", 60%Z)].

(** The health of a row at [now], by the decay formula. *)
Definition live_health (now : datetime) (c : Garden.contact) : R :=
  Spec.health 1 (Garden.decay_rate c)
    (Spec.elapsed_days (Garden.last_interaction_at c) now).

(** The score both handlers publish for a row: four decimal places. *)
Definition published_score (now : datetime) (c : Garden.contact) : R :=
  Py.round (live_health now c) 4.

(** Days until the row's health reaches 0.4, when that lies ahead. *)
Definition cooling_in (now : datetime) (c : Garden.contact) : option R :=
  if Rle_dec (live_health now c) 0.4 then None
  else if Rle_dec (Garden.decay_rate c) 0 then None
  else Some (Py.round (- ln (0.4 / live_health now c) / Garden.decay_rate c) 1).

(** The plant a row is rendered as. *)
Definition plant_of (settings : Settings) (now : datetime) (c : Garden.contact)
  : PlantHealth := {|
  ph_id := Garden.id c;
  ph_name := Garden.name c;
  ph_tier := Garden.tier c;
  ph_growth_stage := Garden.growth_stage c;
  ph_health_score := published_score now c;
  ph_status := classify_status settings (live_health now c);
  ph_days_until_cooling := cooling_in now c;
  ph_last_interaction_at := Garden.last_interaction_at c;
  ph_total_interactions := Garden.total_interactions c;
  ph_is_favorite := default false (Garden.is_favorite c);
  ph_tags := default [] (Garden.tags c)
|}.

Definition sum_list (l : list R) : R := foldr Rplus 0 l.

Definition mean (l : list R) : R := sum_list l / IZR (Z.of_nat (length l)).

(** The mean the handlers report: 0 for no rows, else rounded to four
    decimal places. *)
Definition mean4 (l : list R) : R :=
  match l with
  | [] => 0
  | _ => Py.round (sum_list l / IZR (Z.of_nat (length l))) 4
  end.

(** A row whose columns the engine can digest: a decay rate that is not
    negative, and enumeration columns within the schema. *)
Definition well_formed (c : Garden.contact) : Prop :=
  0 <= Garden.decay_rate c /\
  Garden.tier c ∈ TierEnum /\
  Garden.growth_stage c ∈ GrowthStageEnum.

(** A row the engine computes a health for at [now]: the exponential
    stays within the float range. *)
Definition computable (now : datetime) (c : Garden.contact) : Prop :=
  exp (- Garden.decay_rate c * Spec.elapsed_days (Garden.last_interaction_at c) now)
    < float_overflow.

(** A row [get_garden] can render at [now]: computable, and with
    enumeration columns within the schema. *)
Definition renderable (now : datetime) (c : Garden.contact) : Prop :=
  computable now c /\
  Garden.tier c ∈ TierEnum /\
  Garden.growth_stage c ∈ GrowthStageEnum.

(** The number of rows whose status asks for attention. *)
Definition needing_care (settings : Settings) (now : datetime)
    (data : list Garden.contact) : Z :=
  Z.of_nat (length (filter
    (fun c => Garden.needs_care (classify_status settings (live_health now c)) = true)
    data)).

(** The garden of the rows [data] at [now]. *)
Definition garden_of (settings : Settings) (now : datetime) (uid : string)
    (data : list Garden.contact) : GardenResponse := {|
  gr_user_id := uid;
  gr_total_plants := Z.of_nat (length data);
  gr_avg_health := mean4 (map (live_health now) data);
  gr_needs_attention := needing_care settings now data;
  gr_plants := map (plant_of settings now) data;
  gr_refreshed_at := now
|}.

(** What a refresh of the rows [data] at [now] reports. *)
Definition refresh_of (now : datetime) (uid : string) (data : list Garden.contact)
  : RefreshResult := {|
  rr_user_id := uid;
  rr_contacts_updated := Z.of_nat (length data);
  rr_avg_health := mean4 (map (published_score now) data);
  rr_refreshed_at := now
|}.

(** A row with its stored score replaced. *)
Definition with_health_score (c : Garden.contact) (h : R) : Garden.contact :=
  Garden.mk_contact (Garden.id c) (Garden.user_id c) (Garden.name c) (Garden.tier c)
    (Garden.growth_stage c) h (Garden.decay_rate c) (Garden.last_interaction_at c)
    (Garden.total_interactions c) (Garden.is_favorite c) (Garden.tags c)
    (Garden.is_archived c).

(** A row after a refresh of [uid]'s garden at [now]. *)
Definition refreshed (now : datetime) (uid : string) (c : Garden.contact)
  : Garden.contact :=
  if decide (Garden.selected uid c)
  then with_health_score c (published_score now c)
  else c.

(** A row after the updates for the rows with the ids [keys]. *)
Definition refreshed_among (now : datetime) (keys : list string) (c : Garden.contact)
  : Garden.contact :=
  if decide (Garden.id c ∈ keys)
  then with_health_score c (published_score now c)
  else c.

(** Rows of [table] and of [data] with one id get one score at [now], as
    they do when the ids of the table are unique and [data] is drawn from
    it. *)
Definition shares_inputs (now : datetime) (table data : list Garden.contact) : Prop :=
  forall r c : Garden.contact, r ∈ data -> c ∈ table ->
    Garden.id c = Garden.id r ->
    published_score now c = published_score now r.

(** Two rows that differ at most in the stored score. *)
Definition same_but_score (c c' : Garden.contact) : Prop :=
  c' = with_health_score c (Garden.health_score c').

End GardenSpec.

(** ** Sample timestamps used in examples *)

(** Midnight UTC of the day with the given proleptic Gregorian ordinal. *)
Definition utc_midnight (ordinal : Z) : datetime :=
  {| ticks := (ordinal - 1) * 86400 * 1000000; tzinfo := Some timezone_utc |}.

(** Midnight of that day, without time zone. *)
Definition naive_midnight (ordinal : Z) : datetime :=
  {| ticks := (ordinal - 1) * 86400 * 1000000; tzinfo := None |}.

(** 2024-01-01, as [date(2024, 1, 1).toordinal()]. *)
Definition day_2024_01_01 : Z := 738886.

(** Two rows of one user and one of another, last reached on 2024-01-01. *)
Definition sample_row (key uid tier_name : string) (rate : R) (archived : bool)
  : Garden.contact := {|
  Garden.id := key;
  Garden.user_id := uid;
  Garden.name := "Sample";
  Garden.tier := tier_name;
  Garden.growth_stage := "sprout";
  Garden.health_score := 1;
  Garden.decay_rate := rate;
  Garden.last_interaction_at := utc_midnight day_2024_01_01;
  Garden.total_interactions := 4;
  Garden.is_favorite := None;
  Garden.tags := Some ["friend"];
  Garden.is_archived := archived
|}.

Definition sample_table : list Garden.contact :=
  [sample_row "c1" "ann" "fern" 0.0231 false;
   sample_row "c2" "bob" "orchid" 0.0495 false;
   sample_row "c3" "ann" "bonsai" 0.0116 false;
   sample_row "c4" "ann" "succulent" 0.0077 true].

(** The rows of [sample_table] a query for ann's garden returns. *)
Definition sample_data : list Garden.contact :=
  [sample_row "c1" "ann" "fern" 0.0231 false;
   sample_row "c3" "ann" "bonsai" 0.0116 false].

(** The clock a week after the sample rows were last reached. *)
Definition sample_clock : Z := ticks (utc_midnight (day_2024_01_01 + 7)).

(** A row of ann's with a negative decay rate, and the clock 1000 days
    after the sample rows were last reached. *)
Definition sample_bad_row : Garden.contact := sample_row "c5" "ann" "fern" (-2) false.

Definition sample_late_clock : Z := ticks (utc_midnight (day_2024_01_01 + 1000)).

(** The clock sixty days after the sample rows were last reached: the
    fern has fallen below 0.4 by then, the bonsai has not. *)
Definition sample_stale_clock : Z := ticks (utc_midnight (day_2024_01_01 + 60)).

(** The plants of ann's garden at that reading. *)
Definition sample_stale_plants : list PlantHealth :=
  gr_plants (GardenSpec.garden_of default_settings (datetime_now sample_stale_clock)
               "ann" sample_data).

(** * Properties *)

(** ** Runtime lemmas *)

Section Runtime.

Lemma max_Rmax (a b : R) : Py.max a b = Rmax a b.
Proof.
  unfold Py.max, Rmax.
  destruct (Rgt_dec b a) as [Hgt | Hngt]; destruct (Rle_dec a b) as [Hle | Hnle];
    try reflexivity; lra.
Qed.

Lemma min_Rmin (a b : R) : Py.min a b = Rmin a b.
Proof.
  unfold Py.min, Rmin.
  destruct (Rlt_dec b a) as [Hlt | Hnlt]; destruct (Rle_dec a b) as [Hle | Hnle];
    try reflexivity; lra.
Qed.

Lemma clamp_clamp01 (x : R) : Py.max 0 (Py.min 1 x) = Spec.clamp01 x.
Proof. unfold Spec.clamp01. now rewrite min_Rmin, max_Rmax. Qed.

Lemma clamp01_range (x : R) : 0 <= Spec.clamp01 x <= 1.
Proof.
  unfold Spec.clamp01, Rmax, Rmin.
  destruct (Rle_dec 1 x); destruct (Rle_dec 0 _); lra.
Qed.

Lemma clamp01_id (x : R) : 0 <= x <= 1 -> Spec.clamp01 x = x.
Proof.
  intros Hx. unfold Spec.clamp01, Rmax, Rmin.
  destruct (Rle_dec 1 x); destruct (Rle_dec 0 _); lra.
Qed.

Lemma clamp01_mono (x y : R) : x <= y -> Spec.clamp01 x <= Spec.clamp01 y.
Proof.
  intros Hxy. unfold Spec.clamp01.
  apply Rle_max_compat_l, Rle_min_compat_l, Hxy.
Qed.

Lemma float_overflow_IZR : float_overflow = IZR (2 ^ 1024 - 2 ^ 970).
Proof.
  unfold float_overflow.
  rewrite 2!pow_IZR, <- minus_IZR.
  apply (f_equal IZR). vm_compute. reflexivity.
Qed.

Lemma float_overflow_gt_1 : 1 < float_overflow.
Proof. rewrite float_overflow_IZR. apply IZR_lt. reflexivity. Qed.

Lemma float_overflow_le_pow : float_overflow <= 2 ^ 1024.
Proof.
  unfold float_overflow.
  assert (0 < 2 ^ 970) by (apply pow_lt; lra). lra.
Qed.

(** [math.exp] never overflows on a non-positive argument. *)
Lemma math_exp_nonpos (x : R) : x <= 0 -> math_exp x = Ok (exp x).
Proof.
  intros Hx. unfold math_exp.
  destruct (Rle_dec float_overflow (exp x)) as [Hov | _]; [ | reflexivity].
  exfalso.
  assert (exp x <= 1).
  { destruct Hx as [Hlt | ->]; [ | rewrite exp_0; lra].
    left. rewrite <- exp_0. now apply exp_increasing. }
  pose proof float_overflow_gt_1. lra.
Qed.

Lemma pow2_le_exp (n : nat) : 2 ^ n <= exp (INR n).
Proof.
  induction n as [ | n IH].
  - simpl. rewrite exp_0. lra.
  - rewrite S_INR, exp_plus. simpl pow.
    pose proof (exp_ineq1_le 1) as He.
    assert (0 < 2 ^ n) by (apply pow_lt; lra).
    pose proof (exp_pos (INR n)).
    rewrite Rmult_comm.
    apply Rmult_le_compat; lra.
Qed.

(** [math.exp] overflows from 1024 on (in fact already above 709.78...). *)
Lemma math_exp_overflow (x : R) : 1024 <= x -> math_exp x = Raise OverflowError.
Proof.
  intros Hx. unfold math_exp.
  destruct (Rle_dec float_overflow (exp x)) as [_ | Hno]; [reflexivity | ].
  exfalso. apply Hno.
  apply Rle_trans with (2 ^ 1024); [apply float_overflow_le_pow | ].
  apply Rle_trans with (exp (INR 1024)); [apply pow2_le_exp | ].
  replace (INR 1024) with 1024 by (rewrite INR_IZR_INZ; reflexivity).
  destruct Hx as [Hlt | <-]; [left; now apply exp_increasing | lra].
Qed.

End Runtime.

(** ** calculate_health: what the body computes *)

Section CalculateHealth.

Variables (clock : Z) (last_interaction_at : datetime) (decay_rate : R).
Variables (now : option datetime) (initial_health : R).

Lemma elapsed_days_nonneg (a b : datetime) : 0 <= Spec.elapsed_days a b.
Proof. unfold Spec.elapsed_days. apply Rmax_l. Qed.

(** With a time-zone-aware [now] the subtraction succeeds and the body
    reduces to the exponential of the elapsed days, clamped. *)
Lemma calculate_health_aware :
  Spec.aware (Spec.now_of clock now) ->
  calculate_health clock last_interaction_at decay_rate now initial_health =
  e ← math_exp (- decay_rate * Spec.elapsed_days last_interaction_at (Spec.now_of clock now));
  mret (Spec.clamp01 (initial_health * e)).
Proof.
  unfold Spec.aware, calculate_health, Spec.elapsed_days, Spec.instant, datetime_sub.
  intros Haware.
  set (n := Spec.now_of clock now) in *.
  change (match now with None => datetime_now clock | Some n0 => n0 end) with n.
  destruct (tzinfo n) as [on | ]; [ | congruence].
  assert (Hdays : forall d : Z,
    Py.max (total_seconds d / 86400) 0 = Rmax 0 (IZR d / 1000000 / 86400)).
  { intros d. now rewrite max_Rmax, Rmax_comm. }
  destruct (tzinfo last_interaction_at) as [ol | ] eqn:Hl; cbn.
  - rewrite Hl. cbn. rewrite Hdays.
    destruct (math_exp _); cbn; [ | reflexivity].
    now rewrite clamp_clamp01.
  - rewrite Hdays. unfold timezone_utc. rewrite Z.sub_0_r.
    destruct (math_exp _); cbn; [ | reflexivity].
    now rewrite clamp_clamp01.
Qed.

(** A [now] without time zone cannot be subtracted from: line 50 has made
    [last_interaction_at] aware whatever it was. *)
Lemma calculate_health_naive_now (n : datetime) :
  now = Some n -> tzinfo n = None ->
  calculate_health clock last_interaction_at decay_rate now initial_health =
  Raise TypeError.
Proof.
  intros -> Hn. unfold calculate_health, datetime_sub. rewrite Hn.
  destruct (tzinfo last_interaction_at) as [ol | ] eqn:Hl; cbn.
  - rewrite Hl. reflexivity.
  - reflexivity.
Qed.

(** Where [math.exp] stays in range, the result is the specification's
    clamped exponential. *)
Lemma calculate_health_value :
  Spec.aware (Spec.now_of clock now) ->
  exp (- decay_rate * Spec.elapsed_days last_interaction_at (Spec.now_of clock now))
    < float_overflow ->
  calculate_health clock last_interaction_at decay_rate now initial_health =
  Ok (Spec.health initial_health decay_rate
        (Spec.elapsed_days last_interaction_at (Spec.now_of clock now))).
Proof.
  intros Haware Hexp. rewrite calculate_health_aware by assumption.
  unfold math_exp.
  destruct (Rle_dec float_overflow _) as [Hov | _]; [lra | ].
  cbn. unfold Spec.health. rewrite <- Ropp_mult_distr_l. reflexivity.
Qed.

(** In particular for every decay rate that is not negative. *)
Lemma calculate_health_decay :
  Spec.aware (Spec.now_of clock now) ->
  0 <= decay_rate ->
  calculate_health clock last_interaction_at decay_rate now initial_health =
  Ok (Spec.health initial_health decay_rate
        (Spec.elapsed_days last_interaction_at (Spec.now_of clock now))).
Proof.
  intros Haware Hrate. apply calculate_health_value; [assumption | ].
  pose proof (elapsed_days_nonneg last_interaction_at (Spec.now_of clock now)) as Hd.
  apply Rle_lt_trans with 1; [ | apply float_overflow_gt_1].
  rewrite <- exp_0.
  assert (Harg : - decay_rate * Spec.elapsed_days last_interaction_at (Spec.now_of clock now) <= 0) by nra.
  destruct Harg as [Hlt | ->]; [left; now apply exp_increasing | lra].
Qed.

(** Whatever is returned lies in [0, 1]. *)
Lemma calculate_health_range (h : R) :
  calculate_health clock last_interaction_at decay_rate now initial_health = Ok h ->
  0 <= h <= 1.
Proof.
  unfold calculate_health.
  destruct (datetime_sub _ _) as [delta | e]; cbn; [ | discriminate].
  destruct (math_exp _) as [v | e]; cbn; [ | discriminate].
  intros [= <-]. rewrite clamp_clamp01. apply clamp01_range.
Qed.

End CalculateHealth.

(** A returned value is the clamped exponential of a successful
    subtraction. *)
Lemma calculate_health_returns_inv (clock : Z) (last_interaction_at : datetime)
    (decay_rate : R) (now : option datetime) (initial_health h : R) :
  calculate_health clock last_interaction_at decay_rate now initial_health = Ok h ->
  Spec.aware (Spec.now_of clock now) /\
  h = Spec.health initial_health decay_rate
        (Spec.elapsed_days last_interaction_at (Spec.now_of clock now)).
Proof.
  intros Hret.
  assert (Haware : Spec.aware (Spec.now_of clock now)).
  { unfold Spec.aware. intros Hnaive.
    destruct now as [n | ]; cbn in Hnaive; [ | discriminate].
    rewrite (calculate_health_naive_now clock last_interaction_at decay_rate
               (Some n) initial_health n) in Hret by easy.
    discriminate. }
  split; [exact Haware | ].
  rewrite calculate_health_aware in Hret by assumption.
  destruct (math_exp _) as [v | e] eqn:Hexp; cbn in Hret; [ | discriminate].
  injection Hret as <-.
  unfold math_exp in Hexp.
  destruct (Rle_dec float_overflow _); [discriminate | ].
  injection Hexp as <-.
  unfold Spec.health. now rewrite <- Ropp_mult_distr_l.
Qed.

(** With a decay rate that is zero or negative, a returned value is at or
    above [initial_health], capped at 1. *)
Lemma calculate_health_grows (clock : Z) (last_interaction_at : datetime)
    (decay_rate : R) (now : option datetime) (initial_health h : R) :
  calculate_health clock last_interaction_at decay_rate now initial_health = Ok h ->
  decay_rate <= 0 ->
  Rmin 1 initial_health <= h <= 1.
Proof.
  intros Hret Hrate.
  pose proof (calculate_health_range _ _ _ _ _ h Hret) as [Hlo Hhi].
  split; [ | exact Hhi].
  destruct (calculate_health_returns_inv _ _ _ _ _ h Hret) as [_ ->].
  pose proof (elapsed_days_nonneg last_interaction_at (Spec.now_of clock now)) as Hd.
  set (d := Spec.elapsed_days last_interaction_at (Spec.now_of clock now)) in *.
  assert (He : 1 <= exp (- (decay_rate * d))).
  { assert (Harg : 0 <= - (decay_rate * d)) by nra.
    rewrite <- exp_0.
    destruct Harg as [Hlt | <-]; [left; now apply exp_increasing | lra]. }
  destruct (Rle_dec 0 initial_health) as [Hpos | Hneg].
  - apply Rle_trans with (Spec.clamp01 initial_health).
    + unfold Spec.clamp01. apply Rle_trans with (Rmin 1 initial_health);
        [apply Rle_refl | apply Rmax_r].
    + apply clamp01_mono. nra.
  - apply Rle_trans with 0; [ | apply clamp01_range].
    apply Rle_trans with initial_health; [apply Rmin_r | lra].
Qed.

(** ** Elapsed time between sample timestamps *)

Lemma elapsed_days_instants (a b : datetime) (n : Z) :
  (Spec.instant b - Spec.instant a = n * 86400 * 1000000)%Z ->
  Spec.elapsed_days a b = Rmax 0 (IZR n).
Proof.
  intros Hn. unfold Spec.elapsed_days. rewrite Hn, !mult_IZR.
  f_equal. field.
Qed.

Lemma elapsed_days_utc_midnights (a b : Z) :
  Spec.elapsed_days (utc_midnight a) (utc_midnight b) = Rmax 0 (IZR (b - a)).
Proof.
  apply elapsed_days_instants. unfold Spec.instant, utc_midnight, timezone_utc.
  cbn. lia.
Qed.

Lemma elapsed_days_naive_utc_midnights (a b : Z) :
  Spec.elapsed_days (naive_midnight a) (utc_midnight b) = Rmax 0 (IZR (b - a)).
Proof.
  apply elapsed_days_instants. unfold Spec.instant, naive_midnight, utc_midnight, timezone_utc.
  cbn. lia.
Qed.

Lemma utc_midnight_aware (a : Z) : Spec.aware (utc_midnight a).
Proof. unfold Spec.aware. cbn. discriminate. Qed.

Lemma datetime_now_aware (clock : Z) : Spec.aware (datetime_now clock).
Proof. unfold Spec.aware. cbn. discriminate. Qed.

(** A naive [last_interaction_at] is read as UTC: the result is that of
    the same wall-clock reading tagged with UTC, whatever [now] is. *)
Lemma calculate_health_naive_last (clock : Z) (last : datetime) (r : R)
    (now : option datetime) (ih : R) :
  tzinfo last = None ->
  calculate_health clock last r now ih =
  calculate_health clock (replace_tzinfo last timezone_utc) r now ih.
Proof. intros Hl. unfold calculate_health. rewrite Hl. reflexivity. Qed.

(** ** Tests of [tests/test_decay.py] *)

(** [test_health_at_zero_days]. *)
Example test_health_at_zero_days (clock : Z) :
  calculate_health clock (datetime_now clock) 0.05 (Some (datetime_now clock)) 1 = Ok 1.
Proof.
  rewrite calculate_health_decay by (try apply datetime_now_aware; lra).
  cbn [Spec.now_of].
  rewrite (elapsed_days_instants _ _ 0) by (unfold Spec.instant; cbn; lia).
  unfold Spec.health. rewrite Rmax_left by lra.
  rewrite Rmult_0_r, Ropp_0, exp_0, Rmult_1_r.
  now rewrite clamp01_id by lra.
Qed.

(** [test_future_interaction_returns_one]. *)
Example test_future_interaction_returns_one (day : Z) :
  calculate_health 0 (utc_midnight (day + 1)) 0.05 (Some (utc_midnight day)) 1 = Ok 1.
Proof.
  rewrite calculate_health_decay by (try apply utc_midnight_aware; lra).
  cbn [Spec.now_of]. rewrite elapsed_days_utc_midnights.
  replace (day - (day + 1))%Z with (-1)%Z by lia.
  unfold Spec.health. rewrite Rmax_left by lra.
  rewrite Rmult_0_r, Ropp_0, exp_0, Rmult_1_r.
  now rewrite clamp01_id by lra.
Qed.

(** ** Claims about calculate_health *)

(** C1: [calculate_health] is claimed to return, for every input, the clamp
    to [0, 1] of [initial_health * e^(-decay_rate * elapsed_days)].  With
    [last_interaction_at] = 2024-01-01T00:00Z, [now] 1000 days later,
    [decay_rate = -2.0] and [initial_health = 1.0] that value is 1, but the
    call raises [OverflowError] from [math.exp(2000.0)] before the clamp of
    line 58 is reached. *)
Theorem calculate_health_overflow_at_negative_rate :
  let last := utc_midnight day_2024_01_01 in
  let now := utc_midnight (day_2024_01_01 + 1000) in
  calculate_health 0 last (-2) (Some now) 1 = Raise OverflowError /\
  Spec.health 1 (-2) (Spec.elapsed_days last now) = 1.
Proof.
  cbv zeta.
  assert (Hd : Spec.elapsed_days (utc_midnight day_2024_01_01)
                 (utc_midnight (day_2024_01_01 + 1000)) = 1000).
  { rewrite elapsed_days_utc_midnights.
    replace (day_2024_01_01 + 1000 - day_2024_01_01)%Z with 1000%Z by lia.
    apply Rmax_right. lra. }
  split.
  - rewrite calculate_health_aware by apply utc_midnight_aware.
    cbn [Spec.now_of]. rewrite Hd.
    rewrite math_exp_overflow by lra. reflexivity.
  - rewrite Hd. unfold Spec.health, Spec.clamp01.
    assert (1 <= exp (- (-2 * 1000))).
    { rewrite <- exp_0 at 1. left. apply exp_increasing. lra. }
    rewrite Rmin_left by lra. apply Rmax_right. lra.
Qed.

(** C2: [calculate_health] is claimed to accept every numeric input without
    raising.  A naive [last_interaction_at] of 2024-01-01, the clock read
    1000 days later ([now] omitted), [decay_rate = -2.0] and
    [initial_health = 0.5]: no value is returned, [OverflowError] is raised. *)
Theorem calculate_health_raises_overflow :
  let last := naive_midnight day_2024_01_01 in
  let clock := ticks (utc_midnight (day_2024_01_01 + 1000)) in
  calculate_health clock last (-2) None 0.5 = Raise OverflowError /\
  forall h : R, calculate_health clock last (-2) None 0.5 <> Ok h.
Proof.
  cbv zeta.
  assert (Hraise : calculate_health (ticks (utc_midnight (day_2024_01_01 + 1000)))
            (naive_midnight day_2024_01_01) (-2) None 0.5 = Raise OverflowError).
  { rewrite calculate_health_aware by apply datetime_now_aware.
    cbn [Spec.now_of].
    change (datetime_now (ticks (utc_midnight (day_2024_01_01 + 1000))))
      with (utc_midnight (day_2024_01_01 + 1000)).
    rewrite elapsed_days_naive_utc_midnights.
    replace (day_2024_01_01 + 1000 - day_2024_01_01)%Z with 1000%Z by lia.
    rewrite Rmax_right by lra.
    rewrite math_exp_overflow by lra. reflexivity. }
  split; [exact Hraise | ].
  intros h Hh. rewrite Hraise in Hh. discriminate.
Qed.

(** C9: a timestamp without time zone is claimed to be read as UTC whether
    it is [last_interaction_at] or [now].  With both naive (2024-01-01 and
    seven days later) the call raises [TypeError], while the corresponding
    UTC-aware timestamps give the decayed health: only
    [last_interaction_at] is given a time zone (lines 49-50). *)
Theorem calculate_health_naive_now_type_error :
  let day := day_2024_01_01 in
  calculate_health 0 (naive_midnight day) 0.05 (Some (naive_midnight (day + 7))) 1
    = Raise TypeError /\
  calculate_health 0 (utc_midnight day) 0.05 (Some (utc_midnight (day + 7))) 1
    = Ok (Spec.health 1 0.05 7).
Proof.
  cbv zeta. split.
  - now apply calculate_health_naive_now with (n := naive_midnight (day_2024_01_01 + 7)).
  - rewrite calculate_health_decay by (try apply utc_midnight_aware; lra).
    cbn [Spec.now_of]. rewrite elapsed_days_utc_midnights.
    replace (day_2024_01_01 + 7 - day_2024_01_01)%Z with 7%Z by lia.
    rewrite Rmax_right by lra. reflexivity.
Qed.

Lemma elapsed_days_skew (last now : datetime) :
  (Spec.instant now <= Spec.instant last)%Z ->
  Spec.elapsed_days last now = 0.
Proof.
  intros Hle. unfold Spec.elapsed_days. apply Rmax_left.
  assert (IZR (Spec.instant now - Spec.instant last) <= 0)
    by (apply IZR_le; lia).
  unfold Rdiv.
  assert (0 < / 1000000) by (apply Rinv_0_lt_compat; lra).
  assert (0 < / 86400) by (apply Rinv_0_lt_compat; lra).
  nra.
Qed.

Lemma health_at_zero_days (ih r : R) : Spec.health ih r 0 = Spec.clamp01 ih.
Proof.
  unfold Spec.health. now rewrite Rmult_0_r, Ropp_0, exp_0, Rmult_1_r.
Qed.

(** Outside the data model's [0, 1] the clamp of line 58 shows: with no
    time elapsed, [decay_rate = 0.05] and [initial_health = 2.0] the result
    is 1.0. *)
Lemma calculate_health_skew_not_initial :
  let t := utc_midnight day_2024_01_01 in
  calculate_health 0 t 0.05 (Some t) 2 = Ok 1 /\
  calculate_health 0 t 0.05 (Some t) 2 <> Ok 2.
Proof.
  cbv zeta.
  assert (Hv : calculate_health 0 (utc_midnight day_2024_01_01) 0.05
                 (Some (utc_midnight day_2024_01_01)) 2 = Ok 1).
  { rewrite calculate_health_decay by (try apply utc_midnight_aware; lra).
    cbn [Spec.now_of]. rewrite elapsed_days_skew by lia.
    rewrite health_at_zero_days. f_equal.
    unfold Spec.clamp01. rewrite Rmin_left by lra. apply Rmax_right. lra. }
  split; [exact Hv | ].
  rewrite Hv. intros [= Habs]. lra.
Qed.

(** With no time elapsed the result is [initial_health], clamped. *)
Lemma calculate_health_skew (clock : Z) (last : datetime) (r : R)
    (now : option datetime) (ih : R) :
  Spec.aware (Spec.now_of clock now) ->
  (Spec.instant (Spec.now_of clock now) <= Spec.instant last)%Z ->
  0 < r ->
  Spec.elapsed_days last (Spec.now_of clock now) = 0 /\
  calculate_health clock last r now ih = Ok (Spec.clamp01 ih) /\
  (0 <= ih <= 1 -> calculate_health clock last r now ih = Ok ih) /\
  Spec.clamp01 ih <= Rmax 0 ih.
Proof.
  intros Haware Hskew Hr.
  pose proof (elapsed_days_skew _ _ Hskew) as Hd.
  assert (Hv : calculate_health clock last r now ih = Ok (Spec.clamp01 ih)).
  { rewrite calculate_health_decay by (assumption || lra).
    now rewrite Hd, health_at_zero_days. }
  repeat split.
  - exact Hd.
  - exact Hv.
  - intros Hih. now rewrite Hv, clamp01_id.
  - unfold Spec.clamp01. apply Rle_max_compat_l, Rmin_r.
Qed.

(** C5: for every [last_interaction_at] at or after [now] (clock skew or
    no elapsed time; [now] time-zone aware or omitted), every
    [decay_rate > 0] and every [initial_health] of the data model
    ([0 <= initial_health <= 1]), the elapsed time is floored to 0 and
    [calculate_health] returns exactly [initial_health], so never more
    than it. *)
Theorem calculate_health_skew_returns_initial (clock : Z) (last : datetime) (r : R)
    (now : option datetime) (ih : R) :
  Spec.aware (Spec.now_of clock now) ->
  (Spec.instant (Spec.now_of clock now) <= Spec.instant last)%Z ->
  0 < r ->
  0 <= ih <= 1 ->
  Spec.elapsed_days last (Spec.now_of clock now) = 0 /\
  calculate_health clock last r now ih = Ok ih /\
  (forall h : R, calculate_health clock last r now ih = Ok h -> h <= ih).
Proof.
  intros Haware Hskew Hr Hih.
  destruct (calculate_health_skew clock last r now ih Haware Hskew Hr)
    as (Hd & _ & Hv & _).
  split; [exact Hd | split; [now apply Hv | ]].
  intros h Hh. rewrite (Hv Hih) in Hh. injection Hh as <-. lra.
Qed.

Lemma calculate_health_skew_returns_initial_witness :
  Spec.elapsed_days (utc_midnight (day_2024_01_01 + 1))
    (utc_midnight day_2024_01_01) = 0 /\
  calculate_health 0 (utc_midnight (day_2024_01_01 + 1)) 0.05
    (Some (utc_midnight day_2024_01_01)) 0.5 = Ok 0.5.
Proof.
  pose proof (calculate_health_skew_returns_initial 0
                (utc_midnight (day_2024_01_01 + 1)) 0.05
                (Some (utc_midnight day_2024_01_01)) 0.5) as Hskew.
  destruct Hskew as (Hd & Hv & _).
  - apply utc_midnight_aware.
  - vm_compute. discriminate.
  - lra.
  - lra.
  - split; [exact Hd | exact Hv].
Defined.

Lemma health_non_increasing (ih r d1 d2 : R) :
  0 < r -> d1 <= d2 -> Spec.health ih r d2 <= Spec.health ih r d1.
Proof.
  intros Hr Hd. unfold Spec.health.
  assert (He : exp (- (r * d2)) <= exp (- (r * d1))).
  { assert (Harg : - (r * d2) <= - (r * d1)) by nra.
    destruct Harg as [Hlt | ->]; [left; now apply exp_increasing | lra]. }
  destruct (Rle_dec 0 ih) as [Hpos | Hneg].
  - apply clamp01_mono. now apply Rmult_le_compat_l.
  - assert (Hz : forall d, Spec.clamp01 (ih * exp (- (r * d))) = 0).
    { intros d. pose proof (exp_pos (- (r * d))).
      unfold Spec.clamp01. rewrite Rmin_right by nra. apply Rmax_left. nra. }
    rewrite !Hz. lra.
Qed.

(** C6: for a fixed [decay_rate > 0] and a fixed [initial_health], of two
    samples the one with the larger elapsed time has the smaller or equal
    health: both calls return, and the results are ordered. *)
Theorem calculate_health_non_increasing (clock1 clock2 : Z) (r ih : R)
    (last1 last2 : datetime) (now1 now2 : option datetime) :
  0 < r ->
  Spec.aware (Spec.now_of clock1 now1) ->
  Spec.aware (Spec.now_of clock2 now2) ->
  Spec.elapsed_days last1 (Spec.now_of clock1 now1) <=
    Spec.elapsed_days last2 (Spec.now_of clock2 now2) ->
  exists h1 h2 : R,
    calculate_health clock1 last1 r now1 ih = Ok h1 /\
    calculate_health clock2 last2 r now2 ih = Ok h2 /\
    h2 <= h1.
Proof.
  intros Hr Ha1 Ha2 Hd.
  exists (Spec.health ih r (Spec.elapsed_days last1 (Spec.now_of clock1 now1))).
  exists (Spec.health ih r (Spec.elapsed_days last2 (Spec.now_of clock2 now2))).
  split; [ | split].
  - apply calculate_health_decay; [assumption | lra].
  - apply calculate_health_decay; [assumption | lra].
  - now apply health_non_increasing.
Qed.

Lemma calculate_health_non_increasing_witness :
  exists h1 h2 : R,
    calculate_health 0 (utc_midnight day_2024_01_01) 0.05
      (Some (utc_midnight (day_2024_01_01 + 7))) 1 = Ok h1 /\
    calculate_health 0 (utc_midnight day_2024_01_01) 0.05
      (Some (utc_midnight (day_2024_01_01 + 30))) 1 = Ok h2 /\
    h2 <= h1.
Proof.
  apply (calculate_health_non_increasing 0 0 0.05 1).
  - lra.
  - apply utc_midnight_aware.
  - apply utc_midnight_aware.
  - cbn [Spec.now_of]. rewrite !elapsed_days_utc_midnights.
    apply Rle_max_compat_l, IZR_le. lia.
Defined.

(** C8: round trip.  Whenever [calculate_health(t, r, now = t + d)] returns
    a health [h], [days_until_threshold(h, r, threshold = h)] is absent: a
    score equal to the threshold counts as already there. *)
Theorem round_trip_at_threshold_is_absent (clock : Z) (t : datetime) (r : R)
    (d : timedelta) (ih : R) (now : datetime) (h : R) :
  datetime_add t d = Ok now ->
  calculate_health clock t r (Some now) ih = Ok h ->
  days_until_threshold h r h = Ok None.
Proof.
  intros _ _. unfold days_until_threshold.
  destruct (Rle_dec h h) as [_ | Hn]; [reflexivity | ].
  exfalso. apply Hn. apply Rle_refl.
Qed.

Lemma round_trip_at_threshold_is_absent_witness :
  days_until_threshold (Spec.health 1 0.05 7) 0.05 (Spec.health 1 0.05 7) = Ok None.
Proof.
  apply (round_trip_at_threshold_is_absent 0 (utc_midnight day_2024_01_01) 0.05
           (timedelta_days 7) 1 (utc_midnight (day_2024_01_01 + 7))).
  - vm_compute. reflexivity.
  - rewrite calculate_health_decay by (try apply utc_midnight_aware; lra).
    cbn [Spec.now_of]. rewrite elapsed_days_utc_midnights.
    replace (day_2024_01_01 + 7 - day_2024_01_01)%Z with 7%Z by lia.
    rewrite Rmax_right by lra. reflexivity.
Defined.

(** ** Rounding *)

Section Rounding.

Lemma round_half_even_near (x : R) :
  - (1 / 2) <= IZR (round_half_even x) - x <= 1 / 2.
Proof.
  unfold round_half_even.
  pose proof (Zfloor_bound x) as [Hlo Hhi].
  destruct (Rlt_dec (x - IZR (Zfloor x)) (1 / 2)) as [Hlt | Hge]; [lra | ].
  assert (Hup : - (1 / 2) <= IZR (Zfloor x + 1) - x <= 1 / 2)
    by (rewrite plus_IZR; lra).
  destruct (Rlt_dec (1 / 2) (x - IZR (Zfloor x))) as [Hgt | Hle]; [exact Hup | ].
  destruct (Z.even (Zfloor x)); [lra | exact Hup].
Qed.




End Rounding.

(** ** Claims about days_until_threshold *)

Section DaysUntilThreshold.

Variables current_health decay_rate threshold : R.

Lemma days_until_threshold_absent :
  current_health <= threshold \/ decay_rate <= 0 ->
  days_until_threshold current_health decay_rate threshold = Ok None.
Proof.
  intros Hcase. unfold days_until_threshold.
  destruct (Rle_dec current_health threshold) as [_ | Hgt]; [reflexivity | ].
  destruct (Rle_dec decay_rate 0) as [_ | Hpos]; [reflexivity | ].
  destruct Hcase; contradiction.
Qed.

(** Above a positive threshold, with a positive rate, the three partial
    operations of lines 99-100 all succeed. *)
Lemma days_until_threshold_present :
  0 < threshold -> threshold < current_health -> 0 < decay_rate ->
  days_until_threshold current_health decay_rate threshold =
  Ok (Some (Py.round (- ln (threshold / current_health) / decay_rate) 1)).
Proof.
  intros Hth Hch Hr. unfold days_until_threshold.
  destruct (Rle_dec current_health threshold) as [Hle | _]; [lra | ].
  destruct (Rle_dec decay_rate 0) as [Hle | _]; [lra | ].
  unfold truediv.
  destruct (Req_dec_T current_health 0) as [Hz | _]; [lra | ]. cbn.
  unfold math_log.
  destruct (Rlt_dec 0 (threshold / current_health)) as [_ | Hnpos].
  - cbn. destruct (Req_dec_T decay_rate 0) as [Hz | _]; [lra | ]. reflexivity.
  - exfalso. apply Hnpos. apply Rdiv_lt_0_compat; lra.
Qed.


End DaysUntilThreshold.

(** [test_exact_at_threshold] and [test_already_below_threshold]. *)
Example test_exact_at_threshold : days_until_threshold 0.5 0.05 0.5 = Ok None.
Proof. apply days_until_threshold_absent. lra. Qed.

Example test_already_below_threshold : days_until_threshold 0.3 0.05 0.5 = Ok None.
Proof. apply days_until_threshold_absent. lra. Qed.



(** Day counts of everyday inputs are far inside the float range. *)
Lemma in_float_range_small (x : R) : Rabs x <= 1024 -> Spec.in_float_range x.
Proof.
  intros Hx. unfold Spec.in_float_range.
  apply Rle_trans with (2 ^ 10); [simpl; lra | ].
  apply Rle_pow; [lra | lia].
Qed.

Lemma neg_ln_unit (x : R) : 1 / 2 <= x <= 1 -> 0 <= - ln x <= 1.
Proof.
  intros [Hlo Hhi].
  assert (Hln1 : ln x <= 0).
  { rewrite <- ln_1. destruct Hhi as [Hlt | ->]; [left; apply ln_increasing; lra | lra]. }
  assert (Hhalf : exp (Ropp 1) <= 1 / 2).
  { rewrite exp_Ropp. pose proof (exp_ineq1_le 1) as He.
    apply Rmult_le_reg_r with (exp 1); [apply exp_pos | ].
    rewrite Rinv_l by (pose proof (exp_pos 1); lra). lra. }
  assert (Hln2 : Ropp 1 <= ln x).
  { rewrite <- (ln_exp (Ropp 1)).
    assert (Hle : exp (Ropp 1) <= x) by lra.
    destruct Hle as [Hlt | <-]; [left; apply ln_increasing; [apply exp_pos | exact Hlt] | lra]. }
  lra.
Qed.

Lemma day_count_small (threshold current_health decay_rate : R) :
  0 < current_health -> 1 / 2 <= threshold / current_health <= 1 ->
  / 1024 <= decay_rate ->
  Spec.in_float_range (- ln (threshold / current_health) / decay_rate).
Proof.
  intros Hch Hq Hr. apply in_float_range_small.
  pose proof (neg_ln_unit _ Hq) as [Hlo Hhi].
  assert (Hrpos : 0 < decay_rate).
  { apply Rlt_le_trans with (/ 1024); [apply Rinv_0_lt_compat; lra | exact Hr]. }
  assert (Hinv : 0 < / decay_rate <= 1024).
  { split; [now apply Rinv_0_lt_compat | ].
    rewrite <- (Rinv_inv 1024). apply Rinv_le_contravar; [apply Rinv_0_lt_compat; lra | exact Hr]. }
  unfold Rdiv. rewrite Rabs_right by nra. nra.
Qed.



(** ** Claims about classify_status *)

Section ClassifyStatus.

Variable settings : Settings.

Lemma classify_status_thriving (x : R) :
  threshold_healthy settings <= x -> classify_status settings x = "thriving".
Proof.
  intros Hx. unfold classify_status.
  destruct (Rge_dec x (threshold_healthy settings)) as [_ | Hn]; [reflexivity | lra].
Qed.

Lemma classify_status_cooling (x : R) :
  x < threshold_healthy settings -> threshold_cooling settings <= x ->
  classify_status settings x = "cooling".
Proof.
  intros Hh Hc. unfold classify_status.
  destruct (Rge_dec x (threshold_healthy settings)) as [Hge | _]; [lra | ].
  destruct (Rge_dec x (threshold_cooling settings)) as [_ | Hn]; [reflexivity | lra].
Qed.

Lemma classify_status_at_risk (x : R) :
  x < threshold_healthy settings -> x < threshold_cooling settings ->
  threshold_dormant settings <= x ->
  classify_status settings x = "at_risk".
Proof.
  intros Hh Hc Hd. unfold classify_status.
  destruct (Rge_dec x (threshold_healthy settings)) as [Hge | _]; [lra | ].
  destruct (Rge_dec x (threshold_cooling settings)) as [Hge | _]; [lra | ].
  destruct (Rge_dec x (threshold_dormant settings)) as [_ | Hn]; [reflexivity | lra].
Qed.

Lemma classify_status_dormant (x : R) :
  x < threshold_healthy settings -> x < threshold_cooling settings ->
  x < threshold_dormant settings ->
  classify_status settings x = "dormant".
Proof.
  intros Hh Hc Hd. unfold classify_status.
  destruct (Rge_dec x (threshold_healthy settings)) as [Hge | _]; [lra | ].
  destruct (Rge_dec x (threshold_cooling settings)) as [Hge | _]; [lra | ].
  destruct (Rge_dec x (threshold_dormant settings)) as [Hge | _]; [lra | reflexivity].
Qed.

Lemma classify_status_cases (x : R) :
  (threshold_healthy settings <= x /\ classify_status settings x = "thriving") \/
  (x < threshold_healthy settings /\ threshold_cooling settings <= x /\
   classify_status settings x = "cooling") \/
  (x < threshold_healthy settings /\ x < threshold_cooling settings /\
   threshold_dormant settings <= x /\ classify_status settings x = "at_risk") \/
  (x < threshold_healthy settings /\ x < threshold_cooling settings /\
   x < threshold_dormant settings /\ classify_status settings x = "dormant").
Proof.
  destruct (Rle_lt_dec (threshold_healthy settings) x) as [Hh | Hh].
  { left. split; [exact Hh | now apply classify_status_thriving]. }
  destruct (Rle_lt_dec (threshold_cooling settings) x) as [Hc | Hc].
  { right; left. repeat split; try assumption. now apply classify_status_cooling. }
  destruct (Rle_lt_dec (threshold_dormant settings) x) as [Hd | Hd].
  { right; right; left. repeat split; try assumption. now apply classify_status_at_risk. }
  right; right; right. repeat split; try assumption. now apply classify_status_dormant.
Qed.

End ClassifyStatus.

(** [TestClassifyStatus], under the default settings. *)
Example test_thriving : classify_status default_settings 0.85 = "thriving".
Proof. apply classify_status_thriving. cbn. lra. Qed.

Example test_cooling : classify_status default_settings 0.55 = "cooling".
Proof. apply classify_status_cooling; cbn; lra. Qed.

Example test_at_risk : classify_status default_settings 0.25 = "at_risk".
Proof. apply classify_status_at_risk; cbn; lra. Qed.

Example test_dormant : classify_status default_settings 0.05 = "dormant".
Proof. apply classify_status_dormant; cbn; lra. Qed.

(** C3: [classify_status] buckets a score by the three configured
    thresholds, tried from the highest down, a score equal to a threshold
    falling in the higher bucket; under the default thresholds 0.7 is
    thriving and 0.4 is cooling. *)
Theorem classify_status_buckets :
  (forall (settings : Settings) (health_score : R),
     (threshold_healthy settings <= health_score /\
      classify_status settings health_score = "thriving") \/
     (health_score < threshold_healthy settings /\
      threshold_cooling settings <= health_score /\
      classify_status settings health_score = "cooling") \/
     (health_score < threshold_healthy settings /\
      health_score < threshold_cooling settings /\
      threshold_dormant settings <= health_score /\
      classify_status settings health_score = "at_risk") \/
     (health_score < threshold_healthy settings /\
      health_score < threshold_cooling settings /\
      health_score < threshold_dormant settings /\
      classify_status settings health_score = "dormant")) /\
  threshold_healthy default_settings = 0.7 /\
  threshold_cooling default_settings = 0.4 /\
  threshold_dormant default_settings = 0.1 /\
  classify_status default_settings 0.7 = "thriving" /\
  classify_status default_settings 0.4 = "cooling".
Proof.
  split; [exact classify_status_cases | ].
  split; [reflexivity | ].
  split; [reflexivity | ].
  split; [reflexivity | ].
  split.
  - apply classify_status_thriving. cbn. lra.
  - apply classify_status_cooling; cbn; lra.
Qed.

(** C10: [classify_status] is total over the reals.  With thresholds as
    the data model has them (ordered, within [0, 1]; the defaults are),
    every score below [threshold_dormant], every negative one included, is
    dormant, every score from [threshold_healthy] up, every one above 1
    included, is thriving, and the result is always one of the four
    status strings. *)
Theorem classify_status_total (settings : Settings) (health_score : R) :
  Spec.thresholds_ordered settings ->
  (health_score < threshold_dormant settings ->
   classify_status settings health_score = "dormant") /\
  (health_score < 0 -> classify_status settings health_score = "dormant") /\
  (threshold_healthy settings <= health_score ->
   classify_status settings health_score = "thriving") /\
  (1 < health_score -> classify_status settings health_score = "thriving") /\
  classify_status settings health_score ∈ Spec.statuses.
Proof.
  intros (H0 & Hdc & Hch & H1).
  split; [ | split; [ | split; [ | split]]].
  - intros Hx. apply classify_status_dormant; lra.
  - intros Hx. apply classify_status_dormant; lra.
  - apply classify_status_thriving.
  - intros Hx. apply classify_status_thriving. lra.
  - unfold Spec.statuses.
    destruct (classify_status_cases settings health_score)
      as [(_ & ->) | [(_ & _ & ->) | [(_ & _ & _ & ->) | (_ & _ & _ & ->)]]];
      set_solver.
Qed.

Lemma default_thresholds_ordered : Spec.thresholds_ordered default_settings.
Proof. unfold Spec.thresholds_ordered. cbn. lra. Qed.

Lemma classify_status_total_witness :
  classify_status default_settings (-3) = "dormant" /\
  classify_status default_settings 0.05 = "dormant" /\
  classify_status default_settings 2 = "thriving" /\
  classify_status default_settings 0.25 ∈ Spec.statuses.
Proof.
  pose proof (classify_status_total default_settings (-3) default_thresholds_ordered)
    as (_ & Hnegative & _).
  pose proof (classify_status_total default_settings 0.05 default_thresholds_ordered)
    as (Hbelow & _).
  pose proof (classify_status_total default_settings 2 default_thresholds_ordered)
    as (_ & _ & _ & Habove & _).
  pose proof (classify_status_total default_settings 0.25 default_thresholds_ordered)
    as (_ & _ & _ & _ & Hstatus).
  split; [ | split; [ | split]].
  - apply Hnegative. lra.
  - apply Hbelow. cbn. lra.
  - apply Habove. lra.
  - exact Hstatus.
Defined.

(** ** Claims about get_default_decay_rate *)

(** [get_settings()] hands out one value for the life of the process:
    once the cache is filled, what the environment holds no longer matters. *)
Lemma get_settings_cached (loaded loaded' : Settings) (cache : option Settings) :
  let '(s, cache') := get_settings loaded cache in
  get_settings loaded' cache' = (s, cache').
Proof. destruct cache as [s | ]; reflexivity. Qed.

(** [test_unknown_tier_defaults_to_fern]. *)
Example test_unknown_tier_defaults_to_fern :
  get_default_decay_rate default_settings "unknown" = 0.0231.
Proof.
  unfold get_default_decay_rate.
  rewrite !lookup_insert_ne by discriminate.
  now rewrite lookup_empty.
Qed.

(** C7: each of the four known tier names gets that tier's configured rate
    (by default 0.0077, 0.0231, 0.0495 and 0.0116), and every other name
    the configured fern rate. *)
Theorem get_default_decay_rate_lookup :
  (forall settings : Settings,
     get_default_decay_rate settings "succulent" = decay_rate_succulent settings /\
     get_default_decay_rate settings "fern" = decay_rate_fern settings /\
     get_default_decay_rate settings "orchid" = decay_rate_orchid settings /\
     get_default_decay_rate settings "bonsai" = decay_rate_bonsai settings) /\
  (get_default_decay_rate default_settings "succulent" = 0.0077 /\
   get_default_decay_rate default_settings "fern" = 0.0231 /\
   get_default_decay_rate default_settings "orchid" = 0.0495 /\
   get_default_decay_rate default_settings "bonsai" = 0.0116) /\
  (forall (settings : Settings) (tier : string),
     tier ∉ Spec.known_tiers ->
     get_default_decay_rate settings tier = decay_rate_fern settings).
Proof.
  assert (Hknown : forall settings : Settings,
     get_default_decay_rate settings "succulent" = decay_rate_succulent settings /\
     get_default_decay_rate settings "fern" = decay_rate_fern settings /\
     get_default_decay_rate settings "orchid" = decay_rate_orchid settings /\
     get_default_decay_rate settings "bonsai" = decay_rate_bonsai settings).
  { intros settings. unfold get_default_decay_rate.
    split; [ | split; [ | split]].
    - rewrite !lookup_insert_ne by discriminate. now rewrite lookup_insert_eq.
    - rewrite !lookup_insert_ne by discriminate. now rewrite lookup_insert_eq.
    - rewrite lookup_insert_ne by discriminate. now rewrite lookup_insert_eq.
    - now rewrite lookup_insert_eq. }
  split; [exact Hknown | split].
  - exact (Hknown default_settings).
  - intros settings tier Hunknown. unfold get_default_decay_rate.
    assert (Hne : forall k : string, k ∈ Spec.known_tiers -> k <> tier)
      by (intros k Hk ->; contradiction).
    rewrite !lookup_insert_ne
      by (apply Hne; unfold Spec.known_tiers; repeat constructor).
    rewrite lookup_empty. reflexivity.
Qed.

Lemma get_default_decay_rate_lookup_witness :
  get_default_decay_rate default_settings "unknown_tier" = 0.0231.
Proof.
  destruct get_default_decay_rate_lookup as (_ & _ & Hunknown).
  rewrite (Hunknown default_settings "unknown_tier").
  - reflexivity.
  - unfold Spec.known_tiers. intros Hin.
    repeat (apply elem_of_cons in Hin as [Heq | Hin]; [discriminate Heq | ]).
    now apply elem_of_nil in Hin.
Defined.

(** * Beyond the specification: the engine, the seeding script, the handlers *)

(** ** More on rounding *)

Section RoundingOrder.

Lemma round_half_even_floor (x : R) :
  (Zfloor x <= round_half_even x <= Zfloor x + 1)%Z.
Proof.
  unfold round_half_even.
  destruct (Rlt_dec _ _); [lia | ].
  destruct (Rlt_dec _ _); [lia | ].
  destruct (Z.even _); lia.
Qed.

Lemma round_half_even_le_int (x : R) (n : Z) :
  x <= IZR n -> (round_half_even x <= n)%Z.
Proof.
  intros Hx.
  pose proof (Zfloor_bound x) as [Hlo Hhi].
  assert (Hfn : (Zfloor x <= n)%Z).
  { apply Zfloor_le in Hx. now rewrite ZfloorZ in Hx. }
  destruct (Z.eq_dec (Zfloor x) n) as [Heq | Hne].
  - unfold round_half_even. rewrite Heq in *.
    destruct (Rlt_dec (x - IZR n) (1 / 2)) as [_ | Hge]; [lia | lra].
  - pose proof (round_half_even_floor x). lia.
Qed.

Lemma round_half_even_ge_int (x : R) (n : Z) :
  IZR n <= x -> (n <= round_half_even x)%Z.
Proof.
  intros Hx. apply Zfloor_lub in Hx.
  pose proof (round_half_even_floor x). lia.
Qed.

Lemma round_half_even_mono (x y : R) :
  x <= y -> (round_half_even x <= round_half_even y)%Z.
Proof.
  intros Hxy.
  pose proof (Zfloor_le x y Hxy) as Hf.
  destruct (Z.eq_dec (Zfloor x) (Zfloor y)) as [Heq | Hne].
  - unfold round_half_even. rewrite <- Heq.
    destruct (Rlt_dec (x - IZR (Zfloor x)) (1 / 2)) as [Hx1 | Hx1].
    + destruct (Rlt_dec (y - IZR (Zfloor x)) (1 / 2)); [lia | ].
      destruct (Rlt_dec _ _); [lia | ]. destruct (Z.even _); lia.
    + destruct (Rlt_dec (y - IZR (Zfloor x)) (1 / 2)) as [Hy1 | Hy1]; [lra | ].
      destruct (Rlt_dec (1 / 2) (x - IZR (Zfloor x))) as [Hx2 | Hx2].
      * destruct (Rlt_dec (1 / 2) (y - IZR (Zfloor x))) as [Hy2 | Hy2]; [lia | lra].
      * destruct (Rlt_dec (1 / 2) (y - IZR (Zfloor x))) as [Hy2 | Hy2];
          destruct (Z.even _); lia.
  - pose proof (round_half_even_floor x). pose proof (round_half_even_floor y). lia.
Qed.

Lemma pow10_pos (n : nat) : 0 < 10 ^ n.
Proof. apply pow_lt. lra. Qed.

Lemma round_mono (x y : R) (n : nat) : x <= y -> Py.round x n <= Py.round y n.
Proof.
  intros Hxy. unfold Py.round. pose proof (pow10_pos n) as Hp.
  apply Rmult_le_compat_r; [left; now apply Rinv_0_lt_compat | ].
  apply IZR_le, round_half_even_mono.
  now apply Rmult_le_compat_r; [left | ].
Qed.

(** Rounding keeps an integer multiple of the unit where it is. *)
Lemma round_of_int (k : Z) (n : nat) : Py.round (IZR k) n = IZR k.
Proof.
  unfold Py.round. pose proof (pow10_pos n) as Hp.
  assert (Hk : round_half_even (IZR k * 10 ^ n) = (k * 10 ^ Z.of_nat n)%Z).
  { rewrite pow_IZR, <- mult_IZR.
    unfold round_half_even. rewrite ZfloorZ.
    destruct (Rlt_dec _ _) as [_ | Hn]; [reflexivity | lra]. }
  rewrite Hk, mult_IZR, <- pow_IZR. field. lra.
Qed.

(** Rounding a score within [0, 1] leaves it within [0, 1]. *)
Lemma round_unit (x : R) (n : nat) : 0 <= x <= 1 -> 0 <= Py.round x n <= 1.
Proof.
  intros [H0 H1]. split.
  - rewrite <- (round_of_int 0 n). now apply round_mono.
  - rewrite <- (round_of_int 1 n). now apply round_mono.
Qed.

Lemma round_nonneg (x : R) (n : nat) : 0 <= x -> 0 <= Py.round x n.
Proof.
  intros H0. rewrite <- (round_of_int 0 n). now apply round_mono.
Qed.

Lemma round_near (x : R) (n : nat) : Rabs (Py.round x n - x) <= / 2 / 10 ^ n.
Proof.
  unfold Py.round. pose proof (pow10_pos n) as Hp.
  pose proof (round_half_even_near (x * 10 ^ n)) as [Hlo Hhi].
  assert (Hinv : 0 < / 10 ^ n) by now apply Rinv_0_lt_compat.
  replace (IZR (round_half_even (x * 10 ^ n)) / 10 ^ n - x)
    with ((IZR (round_half_even (x * 10 ^ n)) - x * 10 ^ n) * / 10 ^ n)
    by (field; lra).
  apply Rabs_le. unfold Rdiv. split; nra.
Qed.

End RoundingOrder.

(** ** calculate_health: errors, bounds, composition *)

Lemma elapsed_days_of_instants (a a' b b' : datetime) :
  Spec.instant a = Spec.instant a' -> Spec.instant b = Spec.instant b' ->
  Spec.elapsed_days a b = Spec.elapsed_days a' b'.
Proof. unfold Spec.elapsed_days. now intros -> ->. Qed.

Lemma now_of_omitted_aware (clock : Z) : Spec.aware (Spec.now_of clock None).
Proof. apply datetime_now_aware. Qed.

(** X1: the exceptions of [calculate_health].  It raises [TypeError]
    exactly when [now] is given without a time zone.  It raises
    [OverflowError] only when [now] is aware (or omitted), the decay rate is
    negative and time has elapsed, and it does raise it when the exponent
    [-decay_rate * elapsed_days] is at least 1024 and within the float
    range.  It never raises [ValueError] or [ZeroDivisionError]. *)
Theorem calculate_health_errors (clock : Z) (last : datetime) (r : R)
    (now : option datetime) (ih : R) :
  let d := Spec.elapsed_days last (Spec.now_of clock now) in
  (calculate_health clock last r now ih = Raise TypeError <->
   ~ Spec.aware (Spec.now_of clock now)) /\
  (calculate_health clock last r now ih = Raise OverflowError ->
   Spec.aware (Spec.now_of clock now) /\ r < 0 /\ 0 < d) /\
  (Spec.aware (Spec.now_of clock now) ->
   1024 <= - r * d -> Spec.in_float_range (- r * d) ->
   calculate_health clock last r now ih = Raise OverflowError) /\
  calculate_health clock last r now ih <> Raise ValueError /\
  calculate_health clock last r now ih <> Raise ZeroDivisionError.
Proof.
  cbv zeta.
  pose proof (elapsed_days_nonneg last (Spec.now_of clock now)) as Hd.
  destruct (tzinfo (Spec.now_of clock now)) as [o | ] eqn:Htz.
  - assert (Haware : Spec.aware (Spec.now_of clock now))
      by (unfold Spec.aware; rewrite Htz; discriminate).
    rewrite calculate_health_aware by assumption.
    split; [ | split; [ | split; [ | split]]].
    + unfold math_exp. destruct (Rle_dec _ _); cbn;
        (split; [discriminate | intros Hn; contradiction]).
    + intros Hraise. split; [exact Haware | ].
      destruct (Rle_dec 0 r) as [Hr | Hr].
      * rewrite math_exp_nonpos in Hraise by nra. discriminate.
      * destruct Hd as [Hpos | Hzero]; [lra | ].
        rewrite math_exp_nonpos in Hraise by (rewrite <- Hzero; lra). discriminate.
    + intros _ Hbig _. now rewrite math_exp_overflow.
    + unfold math_exp. destruct (Rle_dec _ _); cbn; discriminate.
    + unfold math_exp. destruct (Rle_dec _ _); cbn; discriminate.
  - assert (Hnaive : ~ Spec.aware (Spec.now_of clock now))
      by (unfold Spec.aware; rewrite Htz; tauto).
    destruct now as [n | ]; [ | discriminate Htz].
    rewrite (calculate_health_naive_now clock last r (Some n) ih n) by easy.
    split; [tauto | split; [discriminate | split; [tauto | split; discriminate]]].
Qed.

(** X2: with [now] omitted, [calculate_health] returns for every decay rate
    that is not negative, whatever [last_interaction_at] is (naive or aware,
    past or future), and what it returns is the clamped exponential of the
    time elapsed up to the clock's reading. *)
Theorem calculate_health_now_omitted (clock : Z) (last : datetime) (r ih : R) :
  0 <= r ->
  calculate_health clock last r None ih =
  Ok (Spec.health ih r (Spec.elapsed_days last (datetime_now clock))).
Proof.
  intros Hr.
  now rewrite calculate_health_decay by (try apply now_of_omitted_aware; assumption).
Qed.

Lemma calculate_health_now_omitted_witness :
  calculate_health 0 (naive_midnight day_2024_01_01) 0.05 None 1 =
  Ok (Spec.health 1 0.05 (Spec.elapsed_days (naive_midnight day_2024_01_01) (datetime_now 0))).
Proof. apply (calculate_health_now_omitted 0 (naive_midnight day_2024_01_01) 0.05 1). lra. Defined.

(** X3: a returned health lies in [0, 1]; with a decay rate that is not
    negative it is at most [max(0, initial_health)], and with one that is
    not positive it is at least [min(1, initial_health)]. *)
Theorem calculate_health_bounds (clock : Z) (last : datetime) (r : R)
    (now : option datetime) (ih h : R) :
  calculate_health clock last r now ih = Ok h ->
  0 <= h <= 1 /\
  (0 <= r -> h <= Rmax 0 ih) /\
  (r <= 0 -> Rmin 1 ih <= h).
Proof.
  intros Hret.
  split; [now apply (calculate_health_range clock last r now ih) | split].
  - intros Hr.
    destruct (calculate_health_returns_inv _ _ _ _ _ h Hret) as [_ ->].
    pose proof (elapsed_days_nonneg last (Spec.now_of clock now)) as Hd.
    set (d := Spec.elapsed_days last (Spec.now_of clock now)) in *.
    assert (He : 0 < exp (- (r * d)) <= 1).
    { split; [apply exp_pos | ].
      assert (Harg : - (r * d) <= 0) by nra.
      rewrite <- exp_0.
      destruct Harg as [Hlt | ->]; [left; now apply exp_increasing | lra]. }
    unfold Spec.health, Spec.clamp01.
    apply Rmax_lub; [apply Rmax_l | ].
    apply Rle_trans with (ih * exp (- (r * d))); [apply Rmin_r | ].
    destruct (Rle_dec 0 ih) as [Hpos | Hneg].
    + apply Rle_trans with ih; [nra | apply Rmax_r].
    + apply Rle_trans with 0; [nra | apply Rmax_l].
  - intros Hr. now apply (calculate_health_grows clock last r now ih).
Qed.

Lemma calculate_health_bounds_witness :
  0 <= Spec.health 1 0.05 7 <= 1 /\
  (0 <= 0.05 -> Spec.health 1 0.05 7 <= Rmax 0 1) /\
  (0.05 <= 0 -> Rmin 1 1 <= Spec.health 1 0.05 7).
Proof.
  apply (calculate_health_bounds 0 (utc_midnight day_2024_01_01) 0.05
           (Some (utc_midnight (day_2024_01_01 + 7))) 1).
  rewrite calculate_health_decay by (try apply utc_midnight_aware; lra).
  cbn [Spec.now_of]. rewrite elapsed_days_utc_midnights.
  replace (day_2024_01_01 + 7 - day_2024_01_01)%Z with 7%Z by lia.
  rewrite Rmax_right by lra. reflexivity.
Defined.

(** X4: for timestamps whose time zone is a fixed UTC offset (a
    [datetime.timezone], as every [tzinfo] of this model is), the health
    depends on the two timestamps only through the UTC instants they
    denote: the same instants written with other offsets (or, for
    [last_interaction_at], without time zone for UTC) give the same
    result. *)
Theorem calculate_health_same_instants (clock1 clock2 : Z) (last1 last2 : datetime)
    (r : R) (now1 now2 : option datetime) (ih : R) :
  Spec.aware (Spec.now_of clock1 now1) ->
  Spec.aware (Spec.now_of clock2 now2) ->
  Spec.instant last1 = Spec.instant last2 ->
  Spec.instant (Spec.now_of clock1 now1) = Spec.instant (Spec.now_of clock2 now2) ->
  calculate_health clock1 last1 r now1 ih = calculate_health clock2 last2 r now2 ih.
Proof.
  intros Ha1 Ha2 Hlast Hnow.
  rewrite !calculate_health_aware by assumption.
  now rewrite (elapsed_days_of_instants last1 last2 _ _ Hlast Hnow).
Qed.

Lemma calculate_health_same_instants_witness :
  calculate_health 0 (naive_midnight day_2024_01_01) 0.05
    (Some (utc_midnight (day_2024_01_01 + 7))) 1 =
  calculate_health 0
    {| ticks := ticks (utc_midnight day_2024_01_01) + 7200000000;
       tzinfo := Some 7200000000%Z |} 0.05
    (Some {| ticks := ticks (utc_midnight (day_2024_01_01 + 7)) - 3600000000;
             tzinfo := Some (-3600000000)%Z |}) 1.
Proof.
  apply calculate_health_same_instants.
  - apply utc_midnight_aware.
  - unfold Spec.aware. cbn. discriminate.
  - vm_compute. reflexivity.
  - vm_compute. reflexivity.
Defined.

Lemma elapsed_days_chain (t0 t1 t2 : datetime) :
  (Spec.instant t0 <= Spec.instant t1 <= Spec.instant t2)%Z ->
  Spec.elapsed_days t0 t2 = Spec.elapsed_days t0 t1 + Spec.elapsed_days t1 t2.
Proof.
  intros [H01 H12]. unfold Spec.elapsed_days.
  assert (Hpos : forall n : Z, (0 <= n)%Z -> 0 <= IZR n / 1000000 / 86400).
  { intros n Hn. apply IZR_le in Hn. lra. }
  rewrite !Rmax_right by (apply Hpos; lia).
  replace (Spec.instant t2 - Spec.instant t0)%Z
    with ((Spec.instant t1 - Spec.instant t0) + (Spec.instant t2 - Spec.instant t1))%Z
    by lia.
  rewrite plus_IZR. lra.
Qed.

Lemma health_unit (ih r d : R) :
  0 <= ih <= 1 -> 0 <= r -> 0 <= d ->
  Spec.health ih r d = ih * exp (- (r * d)) /\ 0 <= Spec.health ih r d <= 1.
Proof.
  intros Hih Hr Hd.
  assert (He : 0 < exp (- (r * d)) <= 1).
  { split; [apply exp_pos | ].
    assert (Harg : - (r * d) <= 0) by nra.
    rewrite <- exp_0.
    destruct Harg as [Hlt | ->]; [left; now apply exp_increasing | lra]. }
  unfold Spec.health. rewrite clamp01_id by nra. split; [reflexivity | nra].
Qed.

(** X5: decay composes.  For timestamps [t0 <= t1 <= t2], a decay rate that
    is not negative and an initial health within [0, 1], the health at [t2]
    computed from [t0] is the health at [t2] computed from [t1] with, as
    initial health, the health at [t1] computed from [t0]. *)
Theorem calculate_health_composes (clock : Z) (t0 t1 t2 : datetime) (r ih : R) :
  Spec.aware t1 -> Spec.aware t2 ->
  (Spec.instant t0 <= Spec.instant t1 <= Spec.instant t2)%Z ->
  0 <= r -> 0 <= ih <= 1 ->
  exists h1 : R,
    calculate_health clock t0 r (Some t1) ih = Ok h1 /\
    calculate_health clock t1 r (Some t2) h1 =
    calculate_health clock t0 r (Some t2) ih.
Proof.
  intros Ha1 Ha2 Horder Hr Hih.
  exists (Spec.health ih r (Spec.elapsed_days t0 t1)).
  rewrite !calculate_health_decay by assumption.
  cbn [Spec.now_of]. split; [reflexivity | f_equal].
  rewrite (elapsed_days_chain t0 t1 t2 Horder).
  pose proof (elapsed_days_nonneg t0 t1) as Hd01.
  pose proof (elapsed_days_nonneg t1 t2) as Hd12.
  destruct (health_unit ih r _ Hih Hr Hd01) as [Heq1 Hunit1].
  destruct (health_unit _ r _ Hunit1 Hr Hd12) as [Heq2 _].
  destruct (health_unit ih r (Spec.elapsed_days t0 t1 + Spec.elapsed_days t1 t2) Hih Hr)
    as [Heq3 _]; [lra | ].
  rewrite Heq2, Heq3, Heq1.
  replace (- (r * (Spec.elapsed_days t0 t1 + Spec.elapsed_days t1 t2)))
    with (- (r * Spec.elapsed_days t0 t1) + - (r * Spec.elapsed_days t1 t2)) by ring.
  rewrite exp_plus. ring.
Qed.

Lemma calculate_health_composes_witness :
  exists h1 : R,
    calculate_health 0 (utc_midnight day_2024_01_01) 0.05
      (Some (utc_midnight (day_2024_01_01 + 7))) 1 = Ok h1 /\
    calculate_health 0 (utc_midnight (day_2024_01_01 + 7)) 0.05
      (Some (utc_midnight (day_2024_01_01 + 30))) h1 =
    calculate_health 0 (utc_midnight day_2024_01_01) 0.05
      (Some (utc_midnight (day_2024_01_01 + 30))) 1.
Proof.
  apply calculate_health_composes.
  - apply utc_midnight_aware.
  - apply utc_midnight_aware.
  - vm_compute. split; discriminate.
  - lra.
  - lra.
Defined.

(** ** days_until_threshold: errors, inversion, order *)

(** Over the reals, which inputs raise what. *)
Lemma days_until_threshold_raises (current_health decay_rate threshold : R) :
  (days_until_threshold current_health decay_rate threshold = Raise ValueError <->
   0 < decay_rate /\ threshold <= 0 /\ 0 < current_health) /\
  (days_until_threshold current_health decay_rate threshold = Raise ZeroDivisionError <->
   0 < decay_rate /\ threshold < 0 /\ current_health = 0) /\
  days_until_threshold current_health decay_rate threshold <> Raise OverflowError /\
  days_until_threshold current_health decay_rate threshold <> Raise TypeError.
Proof.
  assert (Hsign : 0 < threshold / current_health <->
                  (0 < threshold /\ 0 < current_health) \/
                  (threshold < 0 /\ current_health < 0) \/
                  (current_health = 0 /\ 0 < threshold / current_health)).
  { destruct (Rtotal_order current_health 0) as [Hneg | [Hz | Hpos]].
    - assert (Hinv : / current_health < 0) by now apply Rinv_lt_0_compat.
      unfold Rdiv. split; [intros Hq; right; left; nra | ].
      intros [[? ?] | [[? ?] | [? ?]]]; nra.
    - split; [intros Hq; right; right; now split | ].
      intros [[? ?] | [[? ?] | [? ?]]]; [lra | lra | assumption].
    - assert (Hinv : 0 < / current_health) by now apply Rinv_0_lt_compat.
      unfold Rdiv. split; [intros Hq; left; nra | ].
      intros [[? ?] | [[? ?] | [? ?]]]; nra. }
  unfold days_until_threshold.
  destruct (Rle_dec current_health threshold) as [Hle | Hgt]; cbn;
    [repeat split; try discriminate; intros (? & ? & ?); lra | ].
  destruct (Rle_dec decay_rate 0) as [Hr | Hr]; cbn;
    [repeat split; try discriminate; intros (? & ? & ?); lra | ].
  unfold truediv.
  destruct (Req_dec_T current_health 0) as [Hz | Hnz]; cbn.
  { split; [split; [discriminate | intros (? & ? & ?); lra] | ].
    split; [split; [intros _; lra | reflexivity] | ].
    split; discriminate. }
  unfold math_log.
  destruct (Rlt_dec 0 (threshold / current_health)) as [Hq | Hq]; cbn.
  - destruct (Req_dec_T decay_rate 0) as [Hz | _]; [lra | ]. cbn.
    split; [split; [discriminate | ] | ].
    + intros (_ & Hth & Hch). apply Hsign in Hq. lra.
    + split; [split; [discriminate | intros (? & ? & ?); lra] | ].
      split; discriminate.
  - split; [split; [intros _ | reflexivity] | ].
    + assert (Hn : ~ (0 < threshold /\ 0 < current_health) /\
                   ~ (threshold < 0 /\ current_health < 0)) by tauto.
      destruct Hn as [Hn1 Hn2].
      destruct (Rlt_dec 0 current_health) as [Hch | Hch].
      * split; [lra | split; [ | assumption]].
        apply Rnot_lt_le. intros Hth. apply Hn1. now split.
      * exfalso. apply Hn2. split; lra.
    + split; [split; [discriminate | intros (? & ? & ?); lra] | ].
      split; discriminate.
Qed.

(** X6: the exceptions of [days_until_threshold] on a health score
    ([current_health <= 1]).  It raises [ValueError] exactly when
    [decay_rate > 0] and [threshold <= 0 < current_health],
    [ZeroDivisionError] exactly when [decay_rate > 0] and
    [threshold < 0 = current_health], and no other exception; so with a
    positive threshold it never raises. *)
Theorem days_until_threshold_errors (current_health decay_rate threshold : R) :
  current_health <= 1 ->
  (days_until_threshold current_health decay_rate threshold = Raise ValueError <->
   0 < decay_rate /\ threshold <= 0 /\ 0 < current_health) /\
  (days_until_threshold current_health decay_rate threshold = Raise ZeroDivisionError <->
   0 < decay_rate /\ threshold < 0 /\ current_health = 0) /\
  days_until_threshold current_health decay_rate threshold <> Raise OverflowError /\
  days_until_threshold current_health decay_rate threshold <> Raise TypeError.
Proof. intros _. apply days_until_threshold_raises. Qed.

Lemma days_until_threshold_errors_witness :
  days_until_threshold 0.5 0.05 0 = Raise ValueError /\
  days_until_threshold 0 0.05 (-1) = Raise ZeroDivisionError.
Proof.
  split.
  - apply (days_until_threshold_errors 0.5 0.05 0); lra.
  - apply (days_until_threshold_errors 0 0.05 (-1)); lra.
Defined.



Lemma time_to_threshold_mono (th ch1 ch2 r1 r2 : R) :
  0 < th -> th < ch1 -> ch1 <= ch2 -> 0 < r2 -> r2 <= r1 ->
  - ln (th / ch1) / r1 <= - ln (th / ch2) / r2.
Proof.
  intros Hth Hch1 Hch Hr2 Hr.
  assert (Hq1 : 0 < th / ch1) by (apply Rdiv_lt_0_compat; lra).
  assert (Hq2 : 0 < th / ch2) by (apply Rdiv_lt_0_compat; lra).
  assert (Hq : th / ch2 <= th / ch1).
  { unfold Rdiv. apply Rmult_le_compat_l; [lra | ].
    apply Rinv_le_contravar; lra. }
  assert (Hln : ln (th / ch2) <= ln (th / ch1)).
  { destruct Hq as [Hlt | ->]; [left; now apply ln_increasing | lra]. }
  assert (Hln1 : ln (th / ch1) < 0).
  { rewrite <- ln_1. apply ln_increasing; [assumption | ].
    apply Rmult_lt_reg_r with ch1; [lra | ].
    unfold Rdiv. rewrite Rmult_assoc, Rinv_l by lra. lra. }
  assert (Hinv : / r1 <= / r2) by (apply Rinv_le_contravar; lra).
  assert (0 < / r1) by (apply Rinv_0_lt_compat; lra).
  unfold Rdiv. nra.
Qed.

(** X8: the prediction is ordered: of two contacts with health scores
    above the same positive threshold, the one that is at least as healthy
    and decays at most as fast is never predicted to reach the threshold
    sooner (its day count being within the float range). *)
Theorem days_until_threshold_ordered (threshold health1 health2 rate1 rate2 : R) :
  0 < threshold -> threshold < health1 -> health1 <= health2 -> health2 <= 1 ->
  0 < rate2 -> rate2 <= rate1 ->
  Spec.in_float_range (- ln (threshold / health2) / rate2) ->
  exists q1 q2 : R,
    days_until_threshold health1 rate1 threshold = Ok (Some q1) /\
    days_until_threshold health2 rate2 threshold = Ok (Some q2) /\
    q1 <= q2.
Proof.
  intros Hth Hh1 Hh _ Hr2 Hr _.
  exists (Py.round (- ln (threshold / health1) / rate1) 1).
  exists (Py.round (- ln (threshold / health2) / rate2) 1).
  split; [apply days_until_threshold_present; lra | ].
  split; [apply days_until_threshold_present; lra | ].
  now apply round_mono, time_to_threshold_mono.
Qed.

Lemma days_until_threshold_ordered_witness :
  exists q1 q2 : R,
    days_until_threshold 0.6 0.0495 0.5 = Ok (Some q1) /\
    days_until_threshold 0.9 0.0231 0.5 = Ok (Some q2) /\
    q1 <= q2.
Proof.
  apply (days_until_threshold_ordered 0.5 0.6 0.9 0.0495 0.0231); try lra.
  apply day_count_small; lra.
Defined.

(** ** classify_status: order *)

Lemma status_rank_values :
  GardenSpec.status_rank "thriving" = 3%nat /\
  GardenSpec.status_rank "cooling" = 2%nat /\
  GardenSpec.status_rank "at_risk" = 1%nat /\
  GardenSpec.status_rank "dormant" = 0%nat.
Proof. repeat split. Qed.

(** X9: with ordered thresholds, [classify_status] is monotone: a higher
    score never gets a worse status. *)
Theorem classify_status_monotone (settings : Settings) (x y : R) :
  threshold_dormant settings <= threshold_cooling settings ->
  threshold_cooling settings <= threshold_healthy settings ->
  x <= y ->
  (GardenSpec.status_rank (classify_status settings x) <=
   GardenSpec.status_rank (classify_status settings y))%nat.
Proof.
  intros Hdc Hch Hxy.
  destruct status_rank_values as (R3 & R2 & R1 & R0).
  destruct (classify_status_cases settings x)
    as [(Hx & ->) | [(Hx1 & Hx2 & ->) | [(Hx1 & Hx2 & Hx3 & ->) | (Hx1 & Hx2 & Hx3 & ->)]]];
  destruct (classify_status_cases settings y)
    as [(Hy & ->) | [(Hy1 & Hy2 & ->) | [(Hy1 & Hy2 & Hy3 & ->) | (Hy1 & Hy2 & Hy3 & ->)]]];
  rewrite ?R3, ?R2, ?R1, ?R0; try lia; exfalso; lra.
Qed.

Lemma classify_status_monotone_witness :
  (GardenSpec.status_rank (classify_status default_settings 0.25) <=
   GardenSpec.status_rank (classify_status default_settings 0.85))%nat.
Proof. apply classify_status_monotone; cbn; lra. Defined.

(** ** The default rates and their half-lives *)

Lemma exp_near_ln2 (x : R) :
  0.693 <= x <= 0.696 -> 0.45 < exp (- x) < 0.55.
Proof.
  intros [Hlo Hhi].
  set (a := exp (x / 4)).
  assert (Ha_lo : 1 + x / 4 <= a) by apply exp_ineq1_le.
  assert (Ha_hi : a <= / (1 - x / 4)).
  { pose proof (exp_ineq1_le (- (x / 4))) as Hm.
    rewrite exp_Ropp in Hm. fold a in Hm.
    assert (Hapos : 0 < a) by apply exp_pos.
    assert (H1 : 0 < 1 - x / 4) by lra.
    apply Rmult_le_reg_r with (1 - x / 4); [assumption | ].
    rewrite Rinv_l by lra.
    apply Rmult_le_reg_r with (/ a); [now apply Rinv_0_lt_compat | ].
    rewrite Rmult_assoc, (Rmult_comm (1 - x / 4)), <- Rmult_assoc, Rinv_r by lra.
    lra. }
  assert (Hinv : / (1 - x / 4) <= 1.2107).
  { replace 1.2107 with (/ (/ 1.2107)) by (field; lra).
    apply Rinv_le_contravar; [apply Rinv_0_lt_compat; lra | ].
    apply Rmult_le_reg_r with 1.2107; [lra | ].
    rewrite Rinv_l by lra. lra. }
  assert (Ha : 1.17325 <= a <= 1.2107) by lra.
  assert (Ha2 : 1.3765 <= a * a <= 1.4658) by nra.
  assert (Ha4 : 1.8947 <= (a * a) * (a * a) <= 2.1486) by nra.
  assert (Hexp : exp x = (a * a) * (a * a)).
  { unfold a. rewrite <- !exp_plus. f_equal. field. }
  rewrite exp_Ropp, Hexp.
  set (b := a * a * (a * a)) in *.
  assert (Hb : 0 < b) by lra.
  assert (Hbi : 0 < / b) by now apply Rinv_0_lt_compat.
  assert (Hone : b * / b = 1) by (apply Rinv_r; lra).
  split; nra.
Qed.

Lemma default_decay_rates :
  get_default_decay_rate default_settings "succulent" = 0.0077 /\
  get_default_decay_rate default_settings "fern" = 0.0231 /\
  get_default_decay_rate default_settings "orchid" = 0.0495 /\
  get_default_decay_rate default_settings "bonsai" = 0.0116.
Proof.
  unfold get_default_decay_rate.
  split; [ | split; [ | split]];
    rewrite ?lookup_insert_ne by discriminate; now rewrite lookup_insert_eq.
Qed.

(** X10: each default decay rate has the half-life its comment gives: for
    the succulent, fern, orchid and bonsai tiers, a contact last reached
    90, 30, 14 and 60 days ago has a health between 0.45 and 0.55. *)
Theorem default_rates_half_life (tier : string) (days start : Z) :
  (tier, days) ∈ GardenSpec.documented_half_life ->
  exists h : R,
    calculate_health 0 (utc_midnight start)
      (get_default_decay_rate default_settings tier)
      (Some (utc_midnight (start + days))) default_initial_health = Ok h /\
    0.45 < h < 0.55.
Proof.
  intros Hin.
  assert (Hcases : exists rate : R,
            get_default_decay_rate default_settings tier = rate /\
            (0 <= days)%Z /\ 0 < rate /\ 0.693 <= rate * IZR days <= 0.696).
  { unfold GardenSpec.documented_half_life in Hin.
    destruct default_decay_rates as (Hs & Hf & Ho & Hb).
    repeat (apply elem_of_cons in Hin as [[= -> ->] | Hin];
            [eexists; split; [eassumption | split; [lia | lra]] | ]).
    now apply elem_of_nil in Hin. }
  destruct Hcases as (rate & -> & Hdays & Hrate & Hprod).
  exists (Spec.health 1 rate (Spec.elapsed_days (utc_midnight start)
                                (utc_midnight (start + days)))).
  split.
  - apply calculate_health_decay; [apply utc_midnight_aware | lra].
  - rewrite elapsed_days_utc_midnights.
    replace (start + days - start)%Z with days by lia.
    rewrite Rmax_right by (apply IZR_le in Hdays; lra).
    pose proof (exp_near_ln2 (rate * IZR days) Hprod) as Hexp.
    unfold Spec.health. rewrite Rmult_1_l, clamp01_id; lra.
Qed.

Lemma default_rates_half_life_witness :
  exists h : R,
    calculate_health 0 (utc_midnight day_2024_01_01)
      (get_default_decay_rate default_settings "fern")
      (Some (utc_midnight (day_2024_01_01 + 30))) default_initial_health = Ok h /\
    0.45 < h < 0.55.
Proof.
  apply (default_rates_half_life "fern" 30 day_2024_01_01).
  unfold GardenSpec.documented_half_life.
  repeat constructor.
Defined.

(** ** scripts/seed_garden.py *)

Example get_growth_stage_boundaries :
  map Seed.get_growth_stage [0; 2; 3; 9; 10; 24; 25; 49; 50; 60]%Z =
  ["seed"; "seed"; "sprout"; "sprout"; "sapling"; "sapling"; "mature"; "mature";
   "ancient"; "ancient"].
Proof. reflexivity. Qed.

(** X11: [get_growth_stage] is monotone in the interaction count (more
    interactions never give an earlier stage), it names a stage of
    [GrowthStageEnum] for every count, negative ones included, and it
    reaches every stage of [GrowthStageEnum]. *)
Theorem get_growth_stage_monotone (a b : Z) :
  (a <= b)%Z ->
  (GardenSpec.stage_rank (Seed.get_growth_stage a) <=
   GardenSpec.stage_rank (Seed.get_growth_stage b))%nat /\
  Seed.get_growth_stage a ∈ GrowthStageEnum /\
  (forall stage : string, stage ∈ GrowthStageEnum ->
     exists n : Z, Seed.get_growth_stage n = stage).
Proof.
  intros Hab. split; [ | split].
  - unfold Seed.get_growth_stage.
    repeat case_decide; try lia; vm_compute; lia.
  - unfold Seed.get_growth_stage, GrowthStageEnum.
    repeat case_decide; repeat constructor.
  - intros stage Hin. unfold GrowthStageEnum in Hin.
    repeat (apply elem_of_cons in Hin as [-> | Hin]).
    + now exists 0%Z.
    + now exists 3%Z.
    + now exists 10%Z.
    + now exists 25%Z.
    + now exists 50%Z.
    + now apply elem_of_nil in Hin.
Qed.

Lemma get_growth_stage_monotone_witness :
  (GardenSpec.stage_rank (Seed.get_growth_stage 7) <=
   GardenSpec.stage_rank (Seed.get_growth_stage 30))%nat.
Proof. apply (get_growth_stage_monotone 7 30). lia. Defined.

(** X12: the seeding script's own copies agree with the engine under the
    default settings: for each tier of [TierEnum], [DECAY_RATES] holds the
    rate [get_default_decay_rate] returns and the two range tables have an
    entry; and the status it prints for a health is the one
    [classify_status] gives. *)
Theorem seed_agrees_with_engine :
  (forall tier : string, tier ∈ TierEnum ->
     Seed.DECAY_RATES !! tier = Some (get_default_decay_rate default_settings tier) /\
     is_Some (Seed.DAYS_AGO_RANGES !! tier) /\
     is_Some (Seed.INTERACTION_RANGES !! tier)) /\
  (forall health : R,
     Seed.printed_status health = classify_status default_settings health).
Proof.
  split.
  - intros tier Hin. unfold TierEnum in Hin.
    destruct default_decay_rates as (Hs & Hf & Ho & Hb).
    repeat (apply elem_of_cons in Hin as [-> | Hin]);
      [ rewrite Hs | rewrite Hf | rewrite Ho | rewrite Hb | now apply elem_of_nil in Hin ];
      (split; [ | split]);
      unfold Seed.DECAY_RATES, Seed.DAYS_AGO_RANGES, Seed.INTERACTION_RANGES;
      rewrite ?lookup_insert_ne by discriminate;
      rewrite lookup_insert_eq; (reflexivity || (eexists; reflexivity)).
  - intros health. reflexivity.
Qed.

Lemma decay_factor_unit (r d : R) : 0 <= r -> 0 <= d -> 0 < exp (- r * d) <= 1.
Proof.
  intros Hr Hd. split; [apply exp_pos | ].
  assert (Harg : - r * d <= 0) by nra.
  rewrite <- exp_0.
  destruct Harg as [Hlt | ->]; [left; now apply exp_increasing | lra].
Qed.

(** X13: what [seed] stores is fit for the engine.  For a tier of
    [DECAY_RATES], a rate factor drawn from [0.8, 1.2] and a [days_ago]
    that is not negative, the health computed at lines 164-165 is returned
    without error, lies in [0, 1], and is the decay formula's health
    rounded to four places; the stored decay rate lies between 0.0061 and
    0.0594, so it is positive. *)
Theorem seed_values_fit (tier : string) (base_rate u days_ago : R) :
  Seed.DECAY_RATES !! tier = Some base_rate ->
  0.8 <= u <= 1.2 ->
  0 <= days_ago ->
  let decay_rate := Seed.drawn_decay_rate base_rate u in
  exists health : R,
    Seed.seeded_health decay_rate days_ago = Ok health /\
    health = Py.round (Spec.health 1 decay_rate days_ago) 4 /\
    0 <= health <= 1 /\
    0.0061 <= Seed.seeded_decay_rate decay_rate <= 0.0594.
Proof.
  intros Htier Hu Hdays decay_rate.
  assert (Hbase : 0.0077 <= base_rate <= 0.0495).
  { unfold Seed.DECAY_RATES in Htier.
    repeat (apply lookup_insert_Some in Htier as [[_ <-] | [_ Htier]]; [lra | ]).
    now rewrite lookup_empty in Htier. }
  assert (Hrate : 0.00616 <= decay_rate <= 0.0594)
    by (unfold decay_rate, Seed.drawn_decay_rate; nra).
  pose proof (decay_factor_unit decay_rate days_ago) as He.
  assert (Hh : Spec.health 1 decay_rate days_ago = exp (- decay_rate * days_ago)).
  { unfold Spec.health. rewrite Rmult_1_l, Ropp_mult_distr_l.
    apply clamp01_id. lra. }
  exists (Py.round (exp (- decay_rate * days_ago)) 4).
  assert (Hunit : 0 <= Py.round (exp (- decay_rate * days_ago)) 4 <= 1)
    by (apply round_unit; lra).
  split; [ | split; [now rewrite Hh | split; [exact Hunit | ]]].
  - unfold Seed.seeded_health. rewrite math_exp_nonpos by nra. cbn.
    rewrite clamp_clamp01. now rewrite clamp01_id.
  - unfold Seed.seeded_decay_rate, Py.round.
    assert (Hp : 10 ^ 4 = 10000) by (simpl; lra). rewrite Hp.
    assert (Hlo : (61 <= round_half_even (decay_rate * 10000))%Z)
      by (apply round_half_even_ge_int; lra).
    assert (Hhi : (round_half_even (decay_rate * 10000) <= 594)%Z)
      by (apply round_half_even_le_int; lra).
    apply IZR_le in Hlo, Hhi. lra.
Qed.

Lemma seed_values_fit_witness :
  exists health : R,
    Seed.seeded_health (Seed.drawn_decay_rate 0.0231 1.1) 12 = Ok health /\
    health = Py.round (Spec.health 1 (Seed.drawn_decay_rate 0.0231 1.1) 12) 4 /\
    0 <= health <= 1 /\
    0.0061 <= Seed.seeded_decay_rate (Seed.drawn_decay_rate 0.0231 1.1) <= 0.0594.
Proof.
  apply (seed_values_fit "fern" 0.0231 1.1 12).
  - unfold Seed.DECAY_RATES.
    rewrite !lookup_insert_ne by discriminate. now rewrite lookup_insert_eq.
  - lra.
  - lra.
Defined.

(** X14: for a health within [0, 1] the printed bar has exactly twenty
    cells: [floor(20 * health)] full blocks followed by light shade. *)
Theorem bar_has_twenty_cells (health : R) :
  0 <= health <= 1 ->
  exists n : nat,
    Z.of_nat n = Zfloor (health * 20) /\
    (n <= 20)%nat /\
    Seed.bar health = repeat Seed.FULL_BLOCK n ++ repeat Seed.LIGHT_SHADE (20 - n) /\
    length (Seed.bar health) = 20%nat.
Proof.
  intros [H0 H1].
  assert (Hf0 : (0 <= Zfloor (health * 20))%Z)
    by (apply Zfloor_lub; lra).
  assert (Hf1 : (Zfloor (health * 20) <= 20)%Z).
  { assert (Hle : health * 20 <= IZR 20) by lra.
    apply Zfloor_le in Hle. now rewrite ZfloorZ in Hle. }
  exists (Z.to_nat (Zfloor (health * 20))).
  assert (Hbar : Seed.bar health =
                 repeat Seed.FULL_BLOCK (Z.to_nat (Zfloor (health * 20))) ++
                 repeat Seed.LIGHT_SHADE (20 - Z.to_nat (Zfloor (health * 20)))).
  { unfold Seed.bar, Seed.str_mul, Seed.int_of_float.
    destruct (Rle_dec 0 (health * 20)) as [_ | Hn]; [ | lra].
    do 2 f_equal. lia. }
  split; [lia | split; [lia | split; [exact Hbar | ]]].
  rewrite Hbar, length_app, !repeat_length. lia.
Qed.

Lemma bar_has_twenty_cells_witness :
  exists n : nat,
    Z.of_nat n = Zfloor (0.5 * 20) /\
    (n <= 20)%nat /\
    Seed.bar 0.5 = repeat Seed.FULL_BLOCK n ++ repeat Seed.LIGHT_SHADE (20 - n) /\
    length (Seed.bar 0.5) = 20%nat.
Proof. apply (bar_has_twenty_cells 0.5). lra. Defined.

(** ** backend/app/api/v1/garden.py: get_garden *)

Section GetGarden.

Variables (settings : Settings) (clock : Z).

Let now : datetime := datetime_now clock.

Lemma live_health_unit (c : Garden.contact) : 0 <= GardenSpec.live_health now c <= 1.
Proof. apply clamp01_range. Qed.

Lemma published_score_unit (c : Garden.contact) :
  0 <= GardenSpec.published_score now c <= 1.
Proof. apply round_unit, live_health_unit. Qed.

Lemma calculate_health_row (c : Garden.contact) :
  GardenSpec.computable now c ->
  calculate_health clock (Garden.last_interaction_at c) (Garden.decay_rate c)
    (Some now) default_initial_health = Ok (GardenSpec.live_health now c).
Proof.
  intros Hc. apply calculate_health_value; [apply datetime_now_aware | exact Hc].
Qed.

Lemma calculate_health_row_overflow (c : Garden.contact) :
  ~ GardenSpec.computable now c ->
  calculate_health clock (Garden.last_interaction_at c) (Garden.decay_rate c)
    (Some now) default_initial_health = Raise OverflowError.
Proof.
  intros Hc.
  rewrite calculate_health_aware by apply datetime_now_aware.
  unfold math_exp. cbn [Spec.now_of].
  destruct (Rle_dec float_overflow _) as [_ | Hno]; [reflexivity | ].
  exfalso. apply Hc. apply Rnot_le_lt. exact Hno.
Qed.

Lemma days_until_cooling_row (c : Garden.contact) :
  days_until_threshold (GardenSpec.live_health now c) (Garden.decay_rate c) 0.4 =
  Ok (GardenSpec.cooling_in now c).
Proof.
  unfold GardenSpec.cooling_in.
  destruct (Rle_dec (GardenSpec.live_health now c) 0.4) as [Hh | Hh].
  { apply days_until_threshold_absent. now left. }
  destruct (Rle_dec (Garden.decay_rate c) 0) as [Hr | Hr].
  { apply days_until_threshold_absent. now right. }
  apply days_until_threshold_present; lra.
Qed.

Lemma classify_status_in_enum (x : R) : classify_status settings x ∈ StatusEnum.
Proof.
  unfold StatusEnum.
  destruct (classify_status_cases settings x)
    as [(_ & ->) | [(_ & _ & ->) | [(_ & _ & _ & ->) | (_ & _ & _ & ->)]]];
    repeat constructor.
Qed.

Lemma PlantHealth_new_plant_of (c : Garden.contact) :
  PlantHealth_new (GardenSpec.plant_of settings now c) =
  if decide (Garden.tier c ∈ TierEnum /\ Garden.growth_stage c ∈ GrowthStageEnum)
  then Done (GardenSpec.plant_of settings now c)
  else Failed ValidationError.
Proof.
  unfold PlantHealth_new. cbn [ph_tier ph_growth_stage ph_health_score ph_status
                               GardenSpec.plant_of].
  pose proof (published_score_unit c) as [H0 H1].
  pose proof (classify_status_in_enum (GardenSpec.live_health now c)) as Hs.
  repeat case_decide; try tauto;
    destruct (Rge_dec _ 0); try lra;
    destruct (Rle_dec _ 1); try lra; reflexivity.
Qed.

Lemma garden_step_row (plants : list PlantHealth) (total_health : R)
    (needs_attention : Z) (c : Garden.contact) :
  Garden.garden_step settings clock now (plants, total_health, needs_attention) c =
  if Rlt_dec (exp (- Garden.decay_rate c *
                   Spec.elapsed_days (Garden.last_interaction_at c) now)) float_overflow
  then if decide (Garden.tier c ∈ TierEnum /\ Garden.growth_stage c ∈ GrowthStageEnum)
       then Done (plants ++ [GardenSpec.plant_of settings now c],
                  total_health + GardenSpec.live_health now c,
                  if Garden.needs_care (classify_status settings (GardenSpec.live_health now c))
                  then (needs_attention + 1)%Z else needs_attention)
       else Failed ValidationError
  else Failed (EngineError OverflowError).
Proof.
  unfold Garden.garden_step.
  destruct (Rlt_dec _ float_overflow) as [Hc | Hc].
  - rewrite (calculate_health_row c Hc). cbn.
    rewrite days_until_cooling_row. cbn.
    change (PlantHealth_new _) with (PlantHealth_new (GardenSpec.plant_of settings now c)).
    rewrite PlantHealth_new_plant_of.
    case_decide; reflexivity.
  - now rewrite (calculate_health_row_overflow c Hc).
Qed.

Lemma needing_care_cons (c : Garden.contact) (data : list Garden.contact) :
  GardenSpec.needing_care settings now (c :: data) =
  ((if Garden.needs_care (classify_status settings (GardenSpec.live_health now c))
    then 1 else 0) + GardenSpec.needing_care settings now data)%Z.
Proof.
  unfold GardenSpec.needing_care. rewrite filter_cons.
  destruct (Garden.needs_care _); case_decide; try congruence; cbn [length]; lia.
Qed.

(** The loop, whatever the accumulators hold when it starts. *)
Lemma garden_loop_outcomes (data : list Garden.contact) :
  forall (plants : list PlantHealth) (total_health : R) (needs_attention : Z),
  (Forall (GardenSpec.renderable now) data /\
   Garden.garden_loop settings clock now (plants, total_health, needs_attention) data =
   Done (plants ++ map (GardenSpec.plant_of settings now) data,
         total_health + GardenSpec.sum_list (map (GardenSpec.live_health now) data),
         (needs_attention + GardenSpec.needing_care settings now data)%Z)) \/
  (Exists (fun c => ~ GardenSpec.computable now c) data /\
   Garden.garden_loop settings clock now (plants, total_health, needs_attention) data =
   Failed (EngineError OverflowError)) \/
  (Exists (fun c => ~ (Garden.tier c ∈ TierEnum /\ Garden.growth_stage c ∈ GrowthStageEnum))
     data /\
   Garden.garden_loop settings clock now (plants, total_health, needs_attention) data =
   Failed ValidationError).
Proof.
  induction data as [ | c data IH]; intros plants total_health needs_attention.
  - left. split; [constructor | ].
    cbn. rewrite app_nil_r, Rplus_0_r, Z.add_0_r. reflexivity.
  - cbn [Garden.garden_loop]. rewrite garden_step_row.
    destruct (Rlt_dec _ float_overflow) as [Hc | Hc].
    + case_decide as Henum.
      * cbn.
        destruct (IH (plants ++ [GardenSpec.plant_of settings now c])
                     (total_health + GardenSpec.live_health now c)
                     (if Garden.needs_care
                           (classify_status settings (GardenSpec.live_health now c))
                      then (needs_attention + 1)%Z else needs_attention))
          as [[Hall ->] | [[Hex ->] | [Hex ->]]].
        -- left. split; [constructor; [unfold GardenSpec.renderable; tauto | exact Hall] | ].
           rewrite needing_care_cons. cbn [map GardenSpec.sum_list foldr].
           rewrite <- app_assoc. cbn [app]. do 2 f_equal.
           ++ f_equal. unfold GardenSpec.sum_list. ring.
           ++ destruct (Garden.needs_care _); lia.
        -- right; left. split; [now apply Exists_cons_tl | reflexivity].
        -- right; right. split; [now apply Exists_cons_tl | reflexivity].
      * right; right. split; [now apply Exists_cons_hd | reflexivity].
    + right; left. split; [now apply Exists_cons_hd | reflexivity].
Qed.

End GetGarden.

Lemma well_formed_renderable (now : datetime) (c : Garden.contact) :
  GardenSpec.well_formed c -> GardenSpec.renderable now c.
Proof.
  intros (Hrate & Htier & Hstage). split; [ | now split].
  unfold GardenSpec.computable.
  pose proof (decay_factor_unit (Garden.decay_rate c)
                (Spec.elapsed_days (Garden.last_interaction_at c) now) Hrate
                (elapsed_days_nonneg _ _)) as [_ Hle].
  pose proof float_overflow_gt_1. lra.
Qed.

Lemma mean4_nonempty (l : list R) :
  l <> [] ->
  GardenSpec.mean4 l = Py.round (GardenSpec.sum_list l / IZR (Z.of_nat (length l))) 4.
Proof. destruct l; [congruence | reflexivity]. Qed.

(** After a loop that rendered every row, lines 83-93 build the garden. *)
Lemma get_garden_renderable (settings : Settings) (clock : Z) (uid : string)
    (data : list Garden.contact) :
  Forall (GardenSpec.renderable (datetime_now clock)) data ->
  Garden.get_garden settings clock uid data =
  Done (GardenSpec.garden_of settings (datetime_now clock) uid data).
Proof.
  intros Hall. unfold Garden.get_garden.
  destruct (garden_loop_outcomes settings clock data [] 0 0%Z)
    as [[_ Hloop] | [[Hex _] | [Hex _]]].
  - rewrite Hloop. cbn [mbind Schemas.outcome_bind]. cbn [app].
    rewrite Rplus_0_l, Z.add_0_l, length_map.
    unfold GardenSpec.garden_of.
    destruct data as [ | c data].
    + reflexivity.
    + case_decide as Hlen; [ | cbn [length] in Hlen; lia].
      unfold truediv.
      destruct (Req_dec_T _ 0) as [Hz | _].
      { apply eq_IZR in Hz. lia. }
      cbn [mbind mret Schemas.outcome_bind Schemas.outcome_ret engine
           Py.result_bind Py.result_ret].
      rewrite mean4_nonempty by discriminate. now rewrite length_map.
  - exfalso. apply Exists_exists in Hex as (c & Hin & Hc).
    rewrite Forall_forall in Hall. apply Hc, (Hall c Hin).
  - exfalso. apply Exists_exists in Hex as (c & Hin & Hc).
    rewrite Forall_forall in Hall. apply Hc, (Hall c Hin).
Qed.

Lemma sample_data_well_formed : Forall GardenSpec.well_formed sample_data.
Proof.
  unfold sample_data.
  repeat (constructor; [split; [cbn; lra | split; repeat constructor] | ]).
  constructor.
Qed.

Lemma mean4_near_mean (l : list R) :
  l <> [] -> Rabs (GardenSpec.mean4 l - GardenSpec.mean l) <= 1 / 10000.
Proof.
  intros Hl. rewrite mean4_nonempty by assumption.
  pose proof (round_near (GardenSpec.mean l) 4) as Hnear.
  unfold GardenSpec.mean in *.
  apply Rle_trans with (/ 2 / 10 ^ 4); [exact Hnear | ].
  simpl. lra.
Qed.

(** X15: rows the engine can digest always render.  Given rows (their
    timestamps parsed, their columns present) whose decay rate is not
    negative and whose tier and growth stage are within the schema,
    [get_garden] returns without error, whatever the settings and the
    clock, and whether the stored timestamps carry a time zone or not: one
    plant per row in the rows' order, with the row's id, its health at
    [now] rounded to four places as [health_score], and the status of its
    health; [needs_attention] counts the rows whose status is [at_risk] or
    [dormant]; [avg_health] is 0 for no rows (no division is attempted) and
    otherwise within 0.0001 of the mean health. *)
Theorem get_garden_well_formed (settings : Settings) (clock : Z) (uid : string)
    (data : list Garden.contact) :
  let now := datetime_now clock in
  Forall GardenSpec.well_formed data ->
  exists resp : GardenResponse,
    Garden.get_garden settings clock uid data = Done resp /\
    gr_total_plants resp = Z.of_nat (length data) /\
    map ph_id (gr_plants resp) = map Garden.id data /\
    map ph_health_score (gr_plants resp) = map (GardenSpec.published_score now) data /\
    map ph_status (gr_plants resp) =
      map (fun c => classify_status settings (GardenSpec.live_health now c)) data /\
    gr_needs_attention resp = GardenSpec.needing_care settings now data /\
    (data = [] -> gr_avg_health resp = 0) /\
    (data <> [] ->
     Rabs (gr_avg_health resp - GardenSpec.mean (map (GardenSpec.live_health now) data))
       <= 1 / 10000).
Proof.
  cbv zeta. intros Hall.
  exists (GardenSpec.garden_of settings (datetime_now clock) uid data).
  split.
  { apply get_garden_renderable.
    eapply Forall_impl; [exact Hall | ]. intros c. apply well_formed_renderable. }
  cbn [GardenSpec.garden_of gr_total_plants gr_plants gr_needs_attention gr_avg_health].
  split; [reflexivity | ].
  split; [now rewrite <- list_fmap_compose | ].
  split; [now rewrite <- list_fmap_compose | ].
  split; [now rewrite <- list_fmap_compose | ].
  split; [reflexivity | ].
  split.
  - intros ->. reflexivity.
  - intros Hne. apply mean4_near_mean.
    destruct data; [congruence | discriminate].
Qed.

Lemma get_garden_well_formed_witness :
  exists resp : GardenResponse,
    Garden.get_garden default_settings sample_clock "ann" sample_data = Done resp /\
    gr_total_plants resp = 2%Z /\
    map ph_id (gr_plants resp) = ["c1"; "c3"].
Proof.
  destruct (get_garden_well_formed default_settings sample_clock "ann" sample_data
              sample_data_well_formed) as (resp & Hret & Htotal & Hids & _).
  exists resp. split; [exact Hret | split; [exact Htotal | exact Hids]].
Defined.

Lemma get_garden_returns_inv (settings : Settings) (clock : Z) (uid : string)
    (data : list Garden.contact) (resp : GardenResponse) :
  Garden.get_garden settings clock uid data = Done resp ->
  resp = GardenSpec.garden_of settings (datetime_now clock) uid data.
Proof.
  intros Hret.
  destruct (garden_loop_outcomes settings clock data [] 0 0%Z)
    as [[Hall Hloop] | [[Hex Hloop] | [Hex Hloop]]].
  - rewrite get_garden_renderable in Hret by assumption. congruence.
  - unfold Garden.get_garden in Hret. rewrite Hloop in Hret. discriminate.
  - unfold Garden.get_garden in Hret. rewrite Hloop in Hret. discriminate.
Qed.

Lemma sum_list_unit (l : list R) :
  Forall (fun x => 0 <= x <= 1) l ->
  0 <= GardenSpec.sum_list l <= IZR (Z.of_nat (length l)).
Proof.
  induction 1 as [ | x l Hx _ IH].
  - change (0 <= 0 <= 0). lra.
  - change (GardenSpec.sum_list (x :: l)) with (x + GardenSpec.sum_list l).
    cbn [length]. rewrite Nat2Z.inj_succ, succ_IZR. lra.
Qed.

Lemma mean4_unit (l : list R) :
  Forall (fun x => 0 <= x <= 1) l -> 0 <= GardenSpec.mean4 l <= 1.
Proof.
  intros Hl. destruct l as [ | x l]; [cbn; lra | ].
  rewrite mean4_nonempty by discriminate.
  apply round_unit.
  pose proof (sum_list_unit _ Hl) as [Hlo Hhi].
  set (n := IZR (Z.of_nat (length (x :: l)))) in *.
  assert (Hn : 0 < n) by (apply IZR_lt; cbn [length]; lia).
  assert (Hinv : 0 < / n) by now apply Rinv_0_lt_compat.
  assert (Hone : n * / n = 1) by (apply Rinv_r; lra).
  unfold Rdiv. split; nra.
Qed.

Lemma get_garden_sample :
  Garden.get_garden default_settings sample_clock "ann" sample_data =
  Done (GardenSpec.garden_of default_settings (datetime_now sample_clock) "ann" sample_data).
Proof.
  apply get_garden_renderable.
  eapply Forall_impl; [apply sample_data_well_formed | ].
  intros c. apply well_formed_renderable.
Qed.

(** X16: whenever [get_garden] returns, there is one plant per row, in the
    rows' order and with the rows' ids; every plant's [health_score] lies in
    [0, 1] and its status is one of [StatusEnum]; [needs_attention] lies
    between 0 and [total_plants]; and [avg_health] lies in [0, 1]. *)
Theorem get_garden_invariants (settings : Settings) (clock : Z) (uid : string)
    (data : list Garden.contact) (resp : GardenResponse) :
  Garden.get_garden settings clock uid data = Done resp ->
  gr_total_plants resp = Z.of_nat (length data) /\
  map ph_id (gr_plants resp) = map Garden.id data /\
  Forall (fun p => 0 <= ph_health_score p <= 1 /\ ph_status p ∈ StatusEnum)
    (gr_plants resp) /\
  (0 <= gr_needs_attention resp <= gr_total_plants resp)%Z /\
  0 <= gr_avg_health resp <= 1.
Proof.
  intros Hret. apply get_garden_returns_inv in Hret. subst resp.
  cbn [GardenSpec.garden_of gr_total_plants gr_plants gr_needs_attention gr_avg_health].
  split; [reflexivity | split; [ | split; [ | split]]].
  - rewrite <- list_fmap_compose. reflexivity.
  - apply Forall_fmap, Forall_forall. intros c _. cbn. split.
    + apply published_score_unit.
    + apply classify_status_in_enum.
  - unfold GardenSpec.needing_care.
    pose proof (length_filter
      (fun c => Garden.needs_care
                  (classify_status settings (GardenSpec.live_health (datetime_now clock) c))
                = true) data).
    lia.
  - apply mean4_unit, Forall_fmap, Forall_forall. intros c _. cbn.
    apply live_health_unit.
Qed.

Lemma get_garden_invariants_witness :
  gr_total_plants
    (GardenSpec.garden_of default_settings (datetime_now sample_clock) "ann" sample_data)
  = Z.of_nat (length sample_data).
Proof.
  apply (get_garden_invariants default_settings sample_clock "ann" sample_data).
  apply get_garden_sample.
Defined.

(** X17: with a cooling threshold of at most 0.4 (the default is 0.4), a
    plant that [get_garden] counts as needing attention ([at_risk] or
    [dormant]) carries no [days_until_cooling]: it is already past the 0.4
    the prediction is made for. *)
Theorem get_garden_attention_has_no_prediction (settings : Settings) (clock : Z)
    (uid : string) (data : list Garden.contact) (resp : GardenResponse) :
  threshold_cooling settings <= 0.4 ->
  Garden.get_garden settings clock uid data = Done resp ->
  Forall (fun p => Garden.needs_care (ph_status p) = true ->
                   ph_days_until_cooling p = None)
    (gr_plants resp).
Proof.
  intros Hcool Hret. apply get_garden_returns_inv in Hret. subst resp.
  cbn [GardenSpec.garden_of gr_plants].
  apply Forall_fmap, Forall_forall. intros c _. cbn.
  intros Hcare. unfold GardenSpec.cooling_in.
  destruct (Rle_dec _ 0.4) as [_ | Hn]; [reflexivity | exfalso].
  apply Hn.
  destruct (classify_status_cases settings (GardenSpec.live_health (datetime_now clock) c))
    as [(_ & Hs) | [(_ & _ & Hs) | [(_ & Hlt & _) | (_ & Hlt & _)]]];
    try (rewrite Hs in Hcare; discriminate Hcare); lra.
Qed.

Lemma default_cooling_at_most : threshold_cooling default_settings <= 0.4.
Proof. cbn. lra. Qed.

Lemma get_garden_stale_sample :
  Garden.get_garden default_settings sample_stale_clock "ann" sample_data =
  Done (GardenSpec.garden_of default_settings (datetime_now sample_stale_clock) "ann"
          sample_data).
Proof.
  apply get_garden_renderable.
  eapply Forall_impl; [apply sample_data_well_formed | ].
  intros c. apply well_formed_renderable.
Qed.

Lemma sample_stale_health (key uid tier_name : string) (rate : R) (archived : bool) :
  0 <= rate ->
  GardenSpec.live_health (datetime_now sample_stale_clock)
    (sample_row key uid tier_name rate archived) = exp (- (rate * 60)).
Proof.
  intros Hrate. unfold GardenSpec.live_health.
  cbn [Garden.decay_rate Garden.last_interaction_at sample_row].
  change (datetime_now sample_stale_clock) with (utc_midnight (day_2024_01_01 + 60)).
  rewrite elapsed_days_utc_midnights.
  replace (day_2024_01_01 + 60 - day_2024_01_01)%Z with 60%Z by lia.
  rewrite Rmax_right by lra.
  destruct (health_unit 1 rate 60) as [-> _]; [lra | exact Hrate | lra | ].
  apply Rmult_1_l.
Qed.

(** [e^(-x) <= 1 / (1 + x/2)^2] for [x >= 0]. *)
Lemma exp_neg_le_square (x : R) : 0 <= x -> exp (- x) <= / ((1 + x / 2) * (1 + x / 2)).
Proof.
  intros Hx.
  assert (Hhalf : 1 + x / 2 <= exp (x / 2)) by (apply exp_ineq1_le).
  assert (Hsq : (1 + x / 2) * (1 + x / 2) <= exp x).
  { replace x with (x / 2 + x / 2) at 3 by lra. rewrite exp_plus. nra. }
  rewrite exp_Ropp. apply Rinv_le_contravar; [nra | exact Hsq].
Qed.

Lemma sample_stale_fern_needs_care :
  Garden.needs_care
    (ph_status (GardenSpec.plant_of default_settings (datetime_now sample_stale_clock)
                  (sample_row "c1" "ann" "fern" 0.0231 false))) = true.
Proof.
  cbn [GardenSpec.plant_of ph_status].
  rewrite sample_stale_health by lra.
  assert (Hlt : exp (- (0.0231 * 60)) < 0.4).
  { eapply Rle_lt_trans; [apply exp_neg_le_square; lra | ].
    apply Rmult_lt_reg_r with ((1 + 0.0231 * 60 / 2) * (1 + 0.0231 * 60 / 2)); [nra | ].
    rewrite Rinv_l by nra. nra. }
  destruct (classify_status_cases default_settings (exp (- (0.0231 * 60))))
    as [(Hge & _) | [(_ & Hge & _) | [(_ & _ & _ & ->) | (_ & _ & _ & ->)]]];
    try reflexivity; cbn in Hge; lra.
Qed.

Lemma sample_stale_bonsai_predicted :
  let p := GardenSpec.plant_of default_settings (datetime_now sample_stale_clock)
             (sample_row "c3" "ann" "bonsai" 0.0116 false) in
  Garden.needs_care (ph_status p) = false /\ ph_days_until_cooling p <> None.
Proof.
  cbv zeta. cbn [GardenSpec.plant_of ph_status ph_days_until_cooling].
  unfold GardenSpec.cooling_in.
  rewrite sample_stale_health by lra.
  cbn [Garden.decay_rate sample_row].
  assert (Hgt : 0.4 < exp (- (0.0116 * 60))).
  { pose proof (exp_ineq1_le (- (0.0116 * 60) / 2)) as Hhalf.
    replace (- (0.0116 * 60)) with (- (0.0116 * 60) / 2 + - (0.0116 * 60) / 2) by lra.
    rewrite exp_plus. nra. }
  assert (Hlt : exp (- (0.0116 * 60)) < 0.7).
  { eapply Rle_lt_trans; [apply exp_neg_le_square; lra | ].
    apply Rmult_lt_reg_r with ((1 + 0.0116 * 60 / 2) * (1 + 0.0116 * 60 / 2)); [nra | ].
    rewrite Rinv_l by nra. nra. }
  split.
  - destruct (classify_status_cases default_settings (exp (- (0.0116 * 60))))
      as [(Hge & _) | [(_ & _ & ->) | [(_ & Hge & _) | (_ & Hge & _)]]];
      try reflexivity; cbn in Hge; lra.
  - destruct (Rle_dec _ 0.4) as [Hle | _]; [lra | ].
    destruct (Rle_dec 0.0116 0) as [Hle | _]; [lra | discriminate].
Qed.

Lemma get_garden_attention_has_no_prediction_witness :
  Forall (fun p => Garden.needs_care (ph_status p) = true ->
                   ph_days_until_cooling p = None) sample_stale_plants /\
  Exists (fun p => Garden.needs_care (ph_status p) = true /\
                   ph_days_until_cooling p = None) sample_stale_plants /\
  Exists (fun p => Garden.needs_care (ph_status p) = false /\
                   ph_days_until_cooling p <> None) sample_stale_plants.
Proof.
  unfold sample_stale_plants.
  pose proof (get_garden_attention_has_no_prediction default_settings sample_stale_clock
                "ann" sample_data
                (GardenSpec.garden_of default_settings (datetime_now sample_stale_clock)
                   "ann" sample_data)) as Hall.
  assert (Hall' := Hall default_cooling_at_most (get_garden_stale_sample)).
  split; [exact Hall' | split].
  - apply Exists_cons_hd. split.
    + exact sample_stale_fern_needs_care.
    + apply (Forall_inv Hall'). exact sample_stale_fern_needs_care.
  - apply Exists_cons_tl, Exists_cons_hd. exact sample_stale_bonsai_predicted.
Defined.

(** ** backend/app/api/v1/garden.py: refresh_garden *)

Section RefreshGarden.

Variable clock : Z.

Local Abbreviation now := (datetime_now clock).

Lemma update_health_score_map (table : list Garden.contact) (key : string) (h : R) :
  Garden.update_health_score table key h =
  map (fun c => if decide (Garden.id c = key)
                then GardenSpec.with_health_score c h else c) table.
Proof. reflexivity. Qed.

Lemma published_score_with_health (c : Garden.contact) (h : R) :
  GardenSpec.published_score now (GardenSpec.with_health_score c h) =
  GardenSpec.published_score now c.
Proof. reflexivity. Qed.

Lemma with_health_score_twice (c : Garden.contact) (h h' : R) :
  GardenSpec.with_health_score (GardenSpec.with_health_score c h) h' =
  GardenSpec.with_health_score c h'.
Proof. reflexivity. Qed.


Lemma refreshed_among_nil (c : Garden.contact) :
  GardenSpec.refreshed_among now [] c = c.
Proof.
  unfold GardenSpec.refreshed_among. case_decide as Hin; [ | reflexivity].
  now apply elem_of_nil in Hin.
Qed.

Lemma map_refreshed_among_nil (table : list Garden.contact) :
  map (GardenSpec.refreshed_among now []) table = table.
Proof.
  induction table as [ | c table IH]; [reflexivity | ].
  cbn [map]. now rewrite refreshed_among_nil, IH.
Qed.

Lemma shares_inputs_step (table data : list Garden.contact) (r : Garden.contact) :
  GardenSpec.shares_inputs now table (r :: data) ->
  GardenSpec.shares_inputs now
    (Garden.update_health_score table (Garden.id r) (GardenSpec.published_score now r))
    data.
Proof.
  intros Hshare r' c' Hr' Hc' Hid.
  rewrite update_health_score_map in Hc'.
  apply list_elem_of_fmap in Hc' as (c & -> & Hc).
  assert (Hidc : Garden.id c = Garden.id r').
  { revert Hid. case_decide; cbn; congruence. }
  transitivity (GardenSpec.published_score now c).
  - case_decide; reflexivity.
  - apply Hshare; [now apply list_elem_of_further | assumption | assumption].
Qed.

Lemma refreshed_among_step (table : list Garden.contact) (r : Garden.contact)
    (keys : list string) :
  GardenSpec.shares_inputs now table [r] ->
  map (GardenSpec.refreshed_among now keys)
    (Garden.update_health_score table (Garden.id r) (GardenSpec.published_score now r)) =
  map (GardenSpec.refreshed_among now (Garden.id r :: keys)) table.
Proof.
  intros Hshare. rewrite update_health_score_map, <- list_fmap_compose.
  apply list_fmap_ext. intros i c Hc. cbn.
  apply list_elem_of_lookup_2 in Hc.
  unfold GardenSpec.refreshed_among.
  destruct (decide (Garden.id c = Garden.id r)) as [Heq | Hne].
  - rewrite <- (Hshare r c) by (assumption || apply list_elem_of_here).
    rewrite (decide_True (P := Garden.id c ∈ Garden.id r :: keys))
      by (rewrite Heq; apply list_elem_of_here).
    case_decide; reflexivity.
  - destruct (decide (Garden.id c ∈ keys)) as [Hin | Hnin].
    + now rewrite decide_True by now apply list_elem_of_further.
    + rewrite decide_False; [reflexivity | ].
      intros [Heq | Hin]%elem_of_cons; contradiction.
Qed.

(** The loop over rows that are all computable. *)
Lemma refresh_loop_computable (data : list Garden.contact) :
  forall (table : list Garden.contact) (total_health : R) (updated : Z),
  Forall (GardenSpec.computable now) data ->
  GardenSpec.shares_inputs now table data ->
  Garden.refresh_loop clock now table total_health updated data =
  (map (GardenSpec.refreshed_among now (map Garden.id data)) table,
   Ok (total_health + GardenSpec.sum_list (map (GardenSpec.published_score now) data),
       (updated + Z.of_nat (length data))%Z)).
Proof.
  induction data as [ | r data IH]; intros table total_health updated Hall Hshare.
  - cbn [Garden.refresh_loop map length].
    rewrite map_refreshed_among_nil.
    change (GardenSpec.sum_list []) with 0.
    now rewrite Rplus_0_r, Z.add_0_r.
  - apply Forall_cons in Hall as [Hr Hall].
    cbn [Garden.refresh_loop]. rewrite (calculate_health_row clock r Hr).
    change (Py.round (GardenSpec.live_health (datetime_now clock) r) 4)
      with (GardenSpec.published_score now r).
    rewrite IH by (assumption || now apply shares_inputs_step).
    rewrite refreshed_among_step.
    + cbn [map length].
      change (GardenSpec.sum_list (GardenSpec.published_score now r ::
                map (GardenSpec.published_score now) data))
        with (GardenSpec.published_score now r +
              GardenSpec.sum_list (map (GardenSpec.published_score now) data)).
      do 3 f_equal; [ring | lia].
    + intros r' c Hr' Hc. apply list_elem_of_singleton in Hr' as ->.
      apply Hshare; [apply list_elem_of_here | assumption].
Qed.

(** The loop stopped by a row the engine cannot compute: the updates for
    the rows before it stay in the table. *)
Lemma refresh_loop_overflow (pre : list Garden.contact) :
  forall (post table : list Garden.contact) (bad : Garden.contact)
         (total_health : R) (updated : Z),
  Forall (GardenSpec.computable now) pre ->
  ~ GardenSpec.computable now bad ->
  GardenSpec.shares_inputs now table pre ->
  Garden.refresh_loop clock now table total_health updated (pre ++ bad :: post) =
  (map (GardenSpec.refreshed_among now (map Garden.id pre)) table, Raise OverflowError).
Proof.
  induction pre as [ | r pre IH]; intros post table bad total_health updated Hall Hbad Hshare.
  - cbn [app Garden.refresh_loop map].
    rewrite (calculate_health_row_overflow clock bad Hbad).
    now rewrite map_refreshed_among_nil.
  - apply Forall_cons in Hall as [Hr Hall].
    cbn [app Garden.refresh_loop]. rewrite (calculate_health_row clock r Hr).
    change (Py.round (GardenSpec.live_health (datetime_now clock) r) 4)
      with (GardenSpec.published_score now r).
    rewrite IH by (assumption || now apply shares_inputs_step).
    rewrite refreshed_among_step; [reflexivity | ].
    intros r' c Hr' Hc. apply list_elem_of_singleton in Hr' as ->.
    apply Hshare; [apply list_elem_of_here | assumption].
Qed.

End RefreshGarden.

(** ** refresh_garden: what a refresh does to the table *)

Section RefreshTable.

Variables (clock : Z) (uid : string).

Local Abbreviation now := (datetime_now clock).

Lemma unique_id_row (table : list Garden.contact) (c r : Garden.contact) :
  NoDup (map Garden.id table) -> c ∈ table -> r ∈ table ->
  Garden.id c = Garden.id r -> c = r.
Proof.
  induction table as [ | x table IH]; intros Hnd Hc Hr Hid.
  - now apply elem_of_nil in Hc.
  - cbn [map] in Hnd. apply NoDup_cons in Hnd as [Hx Hnd].
    apply elem_of_cons in Hc as [-> | Hc]; apply elem_of_cons in Hr as [-> | Hr].
    + reflexivity.
    + exfalso. apply Hx. rewrite Hid. now apply (list_elem_of_fmap_2 Garden.id).
    + exfalso. apply Hx. rewrite <- Hid. now apply (list_elem_of_fmap_2 Garden.id).
    + now apply IH.
Qed.

Lemma unique_ids_share_inputs (table data : list Garden.contact) :
  NoDup (map Garden.id table) ->
  (forall r, r ∈ data -> r ∈ table) ->
  GardenSpec.shares_inputs now table data.
Proof.
  intros Hnd Hsub r c Hr Hc Hid.
  now rewrite (unique_id_row table c r Hnd Hc (Hsub r Hr) Hid).
Qed.

Lemma selection_in_table (table data : list Garden.contact) :
  data ≡ₚ filter (Garden.selected uid) table ->
  forall r, r ∈ data -> r ∈ table /\ Garden.selected uid r.
Proof.
  intros Hperm r Hr. rewrite Hperm in Hr.
  apply list_elem_of_filter in Hr. tauto.
Qed.

Lemma refreshed_among_selection (table data : list Garden.contact) :
  NoDup (map Garden.id table) ->
  data ≡ₚ filter (Garden.selected uid) table ->
  map (GardenSpec.refreshed_among now (map Garden.id data)) table =
  map (GardenSpec.refreshed now uid) table.
Proof.
  intros Hnd Hperm. apply list_fmap_ext. intros i c Hc.
  apply list_elem_of_lookup_2 in Hc.
  unfold GardenSpec.refreshed_among, GardenSpec.refreshed.
  destruct (decide (Garden.selected uid c)) as [Hsel | Hsel].
  - rewrite decide_True; [reflexivity | ].
    apply (list_elem_of_fmap_2 Garden.id). rewrite Hperm.
    apply list_elem_of_filter. now split.
  - rewrite decide_False; [reflexivity | ].
    intros Hin. apply list_elem_of_fmap in Hin as (r & Hid & Hr).
    destruct (selection_in_table table data Hperm r Hr) as [Hrt Hrs].
    apply Hsel. now rewrite (unique_id_row table c r Hnd Hc Hrt Hid).
Qed.

(** Lines 131-138, after a loop that went through. *)
Lemma refresh_report (table data : list Garden.contact) :
  (avg ← (if decide (0 < 0 + Z.of_nat (length data))%Z
          then q ← truediv
                     (0 + GardenSpec.sum_list (map (GardenSpec.published_score now) data))
                     (IZR (0 + Z.of_nat (length data)));
               mret (Py.round q 4)
          else mret 0);
   mret {| rr_user_id := uid; rr_contacts_updated := (0 + Z.of_nat (length data))%Z;
           rr_avg_health := avg; rr_refreshed_at := now |}) =
  Ok (GardenSpec.refresh_of now uid data).
Proof.
  rewrite Rplus_0_l, Z.add_0_l. unfold GardenSpec.refresh_of.
  destruct data as [ | c data]; [reflexivity | ].
  case_decide as Hlen; [ | cbn [length] in Hlen; lia].
  unfold truediv. destruct (Req_dec_T _ 0) as [Hz | _].
  { apply eq_IZR in Hz. cbn [length] in Hz. lia. }
  cbn [mbind mret Py.result_bind Py.result_ret].
  rewrite mean4_nonempty by discriminate. now rewrite length_map.
Qed.

Lemma refresh_garden_computable (table data : list Garden.contact) :
  NoDup (map Garden.id table) ->
  data ≡ₚ filter (Garden.selected uid) table ->
  Forall (GardenSpec.computable now) data ->
  Garden.refresh_garden clock uid table data =
  (map (GardenSpec.refreshed now uid) table, Ok (GardenSpec.refresh_of now uid data)).
Proof.
  intros Hnd Hperm Hall. unfold Garden.refresh_garden.
  rewrite refresh_loop_computable; [ | assumption | ].
  - rewrite refreshed_among_selection by assumption.
    now rewrite refresh_report.
  - apply unique_ids_share_inputs; [assumption | ].
    intros r Hr. now apply (selection_in_table table data Hperm).
Qed.

End RefreshTable.

Section RefreshProperties.

Variables (clock : Z) (uid : string).

Local Abbreviation now := (datetime_now clock).

Lemma same_but_score_refl (c : Garden.contact) : GardenSpec.same_but_score c c.
Proof. destruct c. reflexivity. Qed.

Lemma refresh_loop_frame (data : list Garden.contact) :
  forall (table : list Garden.contact) (total_health : R) (updated : Z),
  Forall2 (fun c c' => GardenSpec.same_but_score c c' /\
                       (Garden.id c ∉ map Garden.id data -> c' = c))
    table (Garden.refresh_loop clock now table total_health updated data).1.
Proof.
  induction data as [ | r data IH]; intros table total_health updated.
  - cbn. apply Forall_Forall2_diag, Forall_forall.
    intros c _. split; [apply same_but_score_refl | reflexivity].
  - cbn [Garden.refresh_loop].
    destruct (calculate_health _ _ _ _ _) as [h | e].
    + specialize (IH (Garden.update_health_score table (Garden.id r) (Py.round h 4))
                     (total_health + Py.round h 4) (updated + 1)%Z).
      rewrite update_health_score_map in IH at 1.
      apply Forall2_fmap_l in IH.
      eapply Forall2_impl; [exact IH | ].
      intros c c' [Hsame Hkeep]. cbn in Hsame, Hkeep. split.
      * unfold GardenSpec.same_but_score in *. rewrite Hsame.
        destruct (decide (Garden.id c = Garden.id r)); reflexivity.
      * intros Hnin. cbn [map] in Hnin.
        apply not_elem_of_cons in Hnin as [Hne Hnin].
        destruct (decide (Garden.id c = Garden.id r)) as [Heq | _];
          [contradiction | now apply Hkeep].
    + cbn. apply Forall_Forall2_diag, Forall_forall.
      intros c _. split; [apply same_but_score_refl | reflexivity].
Qed.

Lemma refreshed_selected (c : Garden.contact) :
  Garden.selected uid (GardenSpec.refreshed now uid c) <-> Garden.selected uid c.
Proof. unfold GardenSpec.refreshed. case_decide; [ | reflexivity]. reflexivity. Qed.

Lemma refreshed_idempotent (c : Garden.contact) :
  GardenSpec.refreshed now uid (GardenSpec.refreshed now uid c) =
  GardenSpec.refreshed now uid c.
Proof.
  unfold GardenSpec.refreshed.
  destruct (decide (Garden.selected uid c)) as [Hsel | Hsel].
  - destruct (decide (Garden.selected uid _)) as [_ | Hn]; [reflexivity | ].
    exfalso. apply Hn. exact Hsel.
  - destruct (decide (Garden.selected uid c)) as [Hy | _]; [contradiction | reflexivity].
Qed.

Lemma refreshed_id (table : list Garden.contact) :
  map Garden.id (map (GardenSpec.refreshed now uid) table) = map Garden.id table.
Proof.
  induction table as [ | c table IH]; [reflexivity | ].
  cbn [map]. rewrite IH. f_equal.
  unfold GardenSpec.refreshed. case_decide; reflexivity.
Qed.

Lemma refreshed_published (c : Garden.contact) :
  GardenSpec.published_score now (GardenSpec.refreshed now uid c) =
  GardenSpec.published_score now c.
Proof. unfold GardenSpec.refreshed. case_decide; reflexivity. Qed.

Lemma refreshed_computable (c : Garden.contact) :
  GardenSpec.computable now c ->
  GardenSpec.computable now (GardenSpec.refreshed now uid c).
Proof. unfold GardenSpec.refreshed. case_decide; intros Hc; exact Hc. Qed.

Lemma filter_refreshed (table : list Garden.contact) :
  filter (Garden.selected uid) (map (GardenSpec.refreshed now uid) table) =
  map (GardenSpec.refreshed now uid) (filter (Garden.selected uid) table).
Proof.
  induction table as [ | c table IH]; [reflexivity | ].
  cbn [map]. rewrite !filter_cons.
  pose proof (refreshed_selected c) as Hiff.
  destruct (decide (Garden.selected uid c)) as [Hsel | Hsel];
    destruct (decide (Garden.selected uid (GardenSpec.refreshed now uid c)))
      as [Hsel' | Hsel']; try (exfalso; tauto);
    cbn [map]; now rewrite IH.
Qed.

Lemma sum_list_perm (l l' : list R) :
  l ≡ₚ l' -> GardenSpec.sum_list l = GardenSpec.sum_list l'.
Proof.
  induction 1 as [ | x l l' _ IH | x y l | l l' l'' _ IH1 _ IH2].
  - reflexivity.
  - unfold GardenSpec.sum_list in *. cbn. now rewrite IH.
  - unfold GardenSpec.sum_list. cbn. ring.
  - congruence.
Qed.

Lemma mean4_perm (l l' : list R) : l ≡ₚ l' -> GardenSpec.mean4 l = GardenSpec.mean4 l'.
Proof.
  intros Hperm.
  pose proof (Permutation_length Hperm) as Hlen.
  destruct l as [ | x l]; destruct l' as [ | x' l']; try discriminate Hlen.
  - reflexivity.
  - rewrite !mean4_nonempty by discriminate.
    now rewrite (sum_list_perm _ _ Hperm), Hlen.
Qed.

End RefreshProperties.

Lemma sample_table_unique_ids : NoDup (map Garden.id sample_table).
Proof. apply (bool_decide_unpack _). vm_compute. exact I. Qed.

Lemma sample_data_selected : sample_data ≡ₚ filter (Garden.selected "ann") sample_table.
Proof. reflexivity. Qed.

Lemma sample_data_computable :
  Forall (GardenSpec.computable (datetime_now sample_clock)) sample_data.
Proof.
  eapply Forall_impl; [apply sample_data_well_formed | ].
  intros c Hc. now apply well_formed_renderable.
Qed.

Lemma refresh_garden_sample :
  Garden.refresh_garden sample_clock "ann" sample_table sample_data =
  (map (GardenSpec.refreshed (datetime_now sample_clock) "ann") sample_table,
   Ok (GardenSpec.refresh_of (datetime_now sample_clock) "ann" sample_data)).
Proof.
  apply refresh_garden_computable.
  - apply sample_table_unique_ids.
  - apply sample_data_selected.
  - apply sample_data_computable.
Qed.

(** X18: a refresh that goes through.  When the ids of the table are
    unique, the query returned the user's unarchived rows (in any order)
    and the engine can compute each of them, [refresh_garden] returns a
    report and replaces the [health_score] of exactly those rows by their
    health at [now] rounded to four places, a value in [0, 1], leaving
    every other row as it was.  The report names the user and the clock
    reading, counts the rows, and gives an [avg_health] of 0 for no rows
    (no division is attempted) and otherwise within 0.0001 of the mean of
    the stored scores. *)
Theorem refresh_garden_updates (clock : Z) (uid : string)
    (table data : list Garden.contact) :
  let now := datetime_now clock in
  NoDup (map Garden.id table) ->
  data ≡ₚ filter (Garden.selected uid) table ->
  Forall (GardenSpec.computable now) data ->
  exists report : RefreshResult,
    Garden.refresh_garden clock uid table data =
      (map (GardenSpec.refreshed now uid) table, Ok report) /\
    rr_user_id report = uid /\
    rr_contacts_updated report = Z.of_nat (length data) /\
    rr_refreshed_at report = now /\
    (data = [] -> rr_avg_health report = 0) /\
    (data <> [] ->
     Rabs (rr_avg_health report
           - GardenSpec.mean (map (GardenSpec.published_score now) data)) <= 1 / 10000) /\
    Forall (fun c => Garden.selected uid c -> 0 <= Garden.health_score c <= 1)
      (map (GardenSpec.refreshed now uid) table).
Proof.
  cbv zeta. intros Hnd Hperm Hall.
  exists (GardenSpec.refresh_of (datetime_now clock) uid data).
  split; [now apply refresh_garden_computable | ].
  cbn [GardenSpec.refresh_of rr_user_id rr_contacts_updated rr_refreshed_at rr_avg_health].
  do 3 (split; [reflexivity | ]).
  split; [intros ->; reflexivity | split].
  - intros Hne. apply mean4_near_mean.
    destruct data; [congruence | discriminate].
  - apply Forall_fmap, Forall_forall. intros c _. cbn.
    unfold GardenSpec.refreshed. case_decide as Hsel; [ | tauto].
    intros _. apply published_score_unit.
Qed.

Lemma refresh_garden_updates_witness :
  exists report : RefreshResult,
    Garden.refresh_garden sample_clock "ann" sample_table sample_data =
      (map (GardenSpec.refreshed (datetime_now sample_clock) "ann") sample_table,
       Ok report) /\
    rr_contacts_updated report = 2%Z.
Proof.
  destruct (refresh_garden_updates sample_clock "ann" sample_table sample_data
              sample_table_unique_ids sample_data_selected sample_data_computable)
    as (report & Hret & _ & Hcount & _).
  exists report. split; [exact Hret | exact Hcount].
Defined.

(** X19: whatever the table and the rows, and whether it returns or
    raises, [refresh_garden] neither adds, removes nor reorders rows of the
    table, changes no column but [health_score], and leaves untouched every
    row whose id is not among the ids of the rows it was given. *)
Theorem refresh_garden_frame (clock : Z) (uid : string)
    (table data : list Garden.contact) :
  Forall2 (fun c c' => GardenSpec.same_but_score c c' /\
                       (Garden.id c ∉ map Garden.id data -> c' = c))
    table (Garden.refresh_garden clock uid table data).1.
Proof.
  unfold Garden.refresh_garden.
  pose proof (refresh_loop_frame clock data table 0 0%Z) as Hframe.
  destruct (Garden.refresh_loop clock (datetime_now clock) table 0 0 data)
    as [table' [[total_health updated] | e]]; exact Hframe.
Qed.

(** X20: a refresh is idempotent at a fixed clock reading.  After a
    refresh that went through, a second one at the same [now], given the
    user's rows of the refreshed table (in any order), goes through as
    well, leaves the table as the first one left it, and reports the same
    user, clock reading and number of rows; the two [avg_health] differ
    by less than 0.0002, that is by at most one step of the four-place
    rounding. *)
Theorem refresh_garden_idempotent (clock : Z) (uid : string)
    (table data data' : list Garden.contact) :
  let now := datetime_now clock in
  let table' := map (GardenSpec.refreshed now uid) table in
  NoDup (map Garden.id table) ->
  data ≡ₚ filter (Garden.selected uid) table ->
  Forall (GardenSpec.computable now) data ->
  data' ≡ₚ filter (Garden.selected uid) table' ->
  exists report report' : RefreshResult,
    Garden.refresh_garden clock uid table data = (table', Ok report) /\
    Garden.refresh_garden clock uid table' data' = (table', Ok report') /\
    rr_user_id report' = rr_user_id report /\
    rr_contacts_updated report' = rr_contacts_updated report /\
    rr_refreshed_at report' = rr_refreshed_at report /\
    Rabs (rr_avg_health report' - rr_avg_health report) < 2 / 10000.
Proof.
  cbv zeta. intros Hnd Hperm Hall Hperm'.
  assert (Hdata' : data' ≡ₚ map (GardenSpec.refreshed (datetime_now clock) uid) data).
  { rewrite Hperm', filter_refreshed. now rewrite <- Hperm. }
  assert (Hscores : map (GardenSpec.published_score (datetime_now clock)) data' ≡ₚ
                    map (GardenSpec.published_score (datetime_now clock)) data).
  { rewrite Hdata', <- list_fmap_compose.
    erewrite list_fmap_ext; [reflexivity | ].
    intros i c _. apply refreshed_published. }
  exists (GardenSpec.refresh_of (datetime_now clock) uid data),
         (GardenSpec.refresh_of (datetime_now clock) uid data').
  split; [now apply refresh_garden_computable | split].
  - rewrite refresh_garden_computable.
    + f_equal. rewrite <- list_fmap_compose.
      apply list_fmap_ext. intros i c _. apply refreshed_idempotent.
    + now rewrite refreshed_id.
    + exact Hperm'.
    + rewrite Hdata'. apply Forall_fmap.
      eapply Forall_impl; [exact Hall | ].
      intros c Hc. now apply refreshed_computable.
  - cbn [GardenSpec.refresh_of rr_user_id rr_contacts_updated rr_refreshed_at
           rr_avg_health].
    split; [reflexivity | split; [ | split; [reflexivity | ]]].
    + apply Permutation_length in Hscores. rewrite !length_map in Hscores.
      now rewrite Hscores.
    + rewrite (mean4_perm _ _ Hscores), Rminus_diag, Rabs_R0. lra.
Qed.

Lemma refresh_garden_idempotent_witness :
  exists report report' : RefreshResult,
    Garden.refresh_garden sample_clock "ann" sample_table sample_data =
      (map (GardenSpec.refreshed (datetime_now sample_clock) "ann") sample_table,
       Ok report) /\
    Garden.refresh_garden sample_clock "ann"
      (map (GardenSpec.refreshed (datetime_now sample_clock) "ann") sample_table)
      (map (GardenSpec.refreshed (datetime_now sample_clock) "ann") sample_data) =
      (map (GardenSpec.refreshed (datetime_now sample_clock) "ann") sample_table,
       Ok report') /\
    rr_contacts_updated report' = rr_contacts_updated report.
Proof.
  assert (Hsel : map (GardenSpec.refreshed (datetime_now sample_clock) "ann") sample_data ≡ₚ
                 filter (Garden.selected "ann")
                   (map (GardenSpec.refreshed (datetime_now sample_clock) "ann")
                      sample_table)).
  { rewrite filter_refreshed. now rewrite <- sample_data_selected. }
  destruct (refresh_garden_idempotent sample_clock "ann" sample_table sample_data
              (map (GardenSpec.refreshed (datetime_now sample_clock) "ann") sample_data)
              sample_table_unique_ids sample_data_selected sample_data_computable Hsel)
    as (report & report' & Hfirst & Hsecond & _ & Hcount & _).
  exists report, report'. split; [exact Hfirst | split; [exact Hsecond | exact Hcount]].
Defined.

Lemma exp_overflows (x : R) : 1024 <= x -> float_overflow <= exp x.
Proof.
  intros Hx. pose proof (math_exp_overflow x Hx) as Hraise.
  unfold math_exp in Hraise.
  destruct (Rle_dec float_overflow (exp x)) as [Hov | _]; [exact Hov | discriminate].
Qed.

Lemma sample_bad_row_overflows :
  ~ GardenSpec.computable (datetime_now sample_late_clock) sample_bad_row.
Proof.
  unfold GardenSpec.computable.
  change (datetime_now sample_late_clock) with (utc_midnight (day_2024_01_01 + 1000)).
  change (Garden.last_interaction_at sample_bad_row) with (utc_midnight day_2024_01_01).
  change (Garden.decay_rate sample_bad_row) with (-2).
  rewrite elapsed_days_utc_midnights.
  replace (day_2024_01_01 + 1000 - day_2024_01_01)%Z with 1000%Z by lia.
  rewrite Rmax_right by lra.
  apply Rle_not_lt, exp_overflows. lra.
Qed.

(** X21: a refresh is not atomic.  When the engine raises on a row (its
    exponential overflows), [refresh_garden] raises [OverflowError], and
    the table keeps the scores already written for the rows that came
    before it in the query's result; the rows after it are not reached. *)
Theorem refresh_garden_not_atomic (clock : Z) (uid : string)
    (table pre post : list Garden.contact) (bad : Garden.contact) :
  let now := datetime_now clock in
  NoDup (map Garden.id table) ->
  (forall r, r ∈ pre -> r ∈ table) ->
  Forall (GardenSpec.computable now) pre ->
  ~ GardenSpec.computable now bad ->
  Garden.refresh_garden clock uid table (pre ++ bad :: post) =
  (map (GardenSpec.refreshed_among now (map Garden.id pre)) table, Raise OverflowError).
Proof.
  cbv zeta. intros Hnd Hsub Hall Hbad.
  unfold Garden.refresh_garden.
  rewrite refresh_loop_overflow; [reflexivity | assumption | assumption | ].
  now apply unique_ids_share_inputs.
Qed.

Lemma refresh_garden_not_atomic_witness :
  Garden.refresh_garden sample_late_clock "ann" (sample_table ++ [sample_bad_row])
    ([sample_row "c1" "ann" "fern" 0.0231 false] ++
     sample_bad_row :: [sample_row "c3" "ann" "bonsai" 0.0116 false]) =
  (map (GardenSpec.refreshed_among (datetime_now sample_late_clock) ["c1"])
     (sample_table ++ [sample_bad_row]),
   Raise OverflowError).
Proof.
  apply (refresh_garden_not_atomic sample_late_clock "ann"
           (sample_table ++ [sample_bad_row])
           [sample_row "c1" "ann" "fern" 0.0231 false]
           [sample_row "c3" "ann" "bonsai" 0.0116 false] sample_bad_row).
  - apply (bool_decide_unpack _). vm_compute. exact I.
  - intros r Hr. apply list_elem_of_singleton in Hr as ->. apply list_elem_of_here.
  - constructor; [ | constructor].
    apply well_formed_renderable.
    split; [cbn; lra | split; repeat constructor].
  - apply sample_bad_row_overflows.
Defined.

Lemma get_garden_returns_renderable (settings : Settings) (clock : Z) (uid : string)
    (data : list Garden.contact) (resp : GardenResponse) :
  Garden.get_garden settings clock uid data = Done resp ->
  Forall (GardenSpec.renderable (datetime_now clock)) data.
Proof.
  intros Hret.
  destruct (garden_loop_outcomes settings clock data [] 0 0%Z)
    as [[Hall _] | [[_ Hloop] | [_ Hloop]]]; [exact Hall | | ];
    unfold Garden.get_garden in Hret; rewrite Hloop in Hret; discriminate.
Qed.

(** X22: the two handlers publish the same scores.  When, at one clock
    reading and from the same rows, [get_garden] returns a garden and
    [refresh_garden] a report, every row of the user's that the refresh
    left in the table has a plant in the garden with its id and exactly
    its stored [health_score]; and the garden has as many plants as the
    refresh counted. *)
Theorem garden_agrees_with_refresh (settings : Settings) (clock : Z) (uid : string)
    (table data table' : list Garden.contact) (resp : GardenResponse)
    (report : RefreshResult) :
  NoDup (map Garden.id table) ->
  data ≡ₚ filter (Garden.selected uid) table ->
  Garden.get_garden settings clock uid data = Done resp ->
  Garden.refresh_garden clock uid table data = (table', Ok report) ->
  (forall c' : Garden.contact, c' ∈ table' -> Garden.selected uid c' ->
     exists p : PlantHealth,
       p ∈ gr_plants resp /\
       ph_id p = Garden.id c' /\
       ph_health_score p = Garden.health_score c') /\
  gr_total_plants resp = rr_contacts_updated report.
Proof.
  intros Hnd Hperm Hgarden Hrefresh.
  pose proof (get_garden_returns_renderable _ _ _ _ _ Hgarden) as Hall.
  apply get_garden_returns_inv in Hgarden. subst resp.
  rewrite refresh_garden_computable in Hrefresh;
    [ | assumption | assumption
      | eapply Forall_impl; [exact Hall | intros c Hc; apply Hc] ].
  injection Hrefresh as <- <-.
  split; [ | reflexivity].
  intros c' Hc' Hsel'.
  apply list_elem_of_fmap in Hc' as (c & -> & Hc).
  apply refreshed_selected in Hsel'.
  exists (GardenSpec.plant_of settings (datetime_now clock) c).
  split; [ | split].
  - cbn [GardenSpec.garden_of gr_plants].
    apply list_elem_of_fmap_2. rewrite Hperm.
    apply list_elem_of_filter. now split.
  - unfold GardenSpec.refreshed. case_decide; reflexivity.
  - unfold GardenSpec.refreshed. rewrite decide_True by assumption. reflexivity.
Qed.

Lemma garden_agrees_with_refresh_witness :
  (forall c' : Garden.contact,
     c' ∈ map (GardenSpec.refreshed (datetime_now sample_clock) "ann") sample_table ->
     Garden.selected "ann" c' ->
     exists p : PlantHealth,
       p ∈ gr_plants (GardenSpec.garden_of default_settings (datetime_now sample_clock)
                        "ann" sample_data) /\
       ph_id p = Garden.id c' /\
       ph_health_score p = Garden.health_score c') /\
  gr_total_plants (GardenSpec.garden_of default_settings (datetime_now sample_clock)
                     "ann" sample_data) =
  rr_contacts_updated (GardenSpec.refresh_of (datetime_now sample_clock) "ann" sample_data).
Proof.
  apply (garden_agrees_with_refresh default_settings sample_clock "ann"
           sample_table sample_data).
  - apply sample_table_unique_ids.
  - apply sample_data_selected.
  - apply get_garden_sample.
  - apply refresh_garden_sample.
Defined.

(** ** The engine across tiers, and the settings singleton *)

(** X23: at equal elapsed time a contact that decays faster is never
    healthier, and one that starts healthier never ends less healthy: for
    decay rates [0 <= rate1 <= rate2] and initial healths
    [initial2 <= initial1], both calls return and the health under
    [rate2] and [initial2] is at most the health under [rate1] and
    [initial1]. *)
Theorem calculate_health_rate_order (clock : Z) (last : datetime)
    (now : option datetime) (rate1 rate2 initial1 initial2 : R) :
  Spec.aware (Spec.now_of clock now) ->
  0 <= rate1 -> rate1 <= rate2 -> initial2 <= initial1 ->
  exists h1 h2 : R,
    calculate_health clock last rate1 now initial1 = Ok h1 /\
    calculate_health clock last rate2 now initial2 = Ok h2 /\
    h2 <= h1.
Proof.
  intros Haware Hr1 Hr Hih.
  set (d := Spec.elapsed_days last (Spec.now_of clock now)).
  exists (Spec.health initial1 rate1 d), (Spec.health initial2 rate2 d).
  split; [apply calculate_health_decay; assumption | ].
  split; [apply calculate_health_decay; [assumption | lra] | ].
  pose proof (elapsed_days_nonneg last (Spec.now_of clock now)) as Hd. fold d in Hd.
  assert (He2 : 0 < exp (- (rate2 * d))) by apply exp_pos.
  assert (He : exp (- (rate2 * d)) <= exp (- (rate1 * d))).
  { assert (Harg : - (rate2 * d) <= - (rate1 * d)) by nra.
    destruct Harg as [Hlt | ->]; [left; now apply exp_increasing | lra]. }
  unfold Spec.health.
  destruct (Rle_dec 0 initial2) as [Hpos | Hneg].
  - apply clamp01_mono. nra.
  - apply Rle_trans with 0; [ | apply clamp01_range].
    unfold Spec.clamp01. rewrite Rmin_right by nra. rewrite Rmax_left by nra. lra.
Qed.

Lemma calculate_health_rate_order_witness :
  exists h1 h2 : R,
    calculate_health 0 (utc_midnight day_2024_01_01) 0.0077
      (Some (utc_midnight (day_2024_01_01 + 30))) 1 = Ok h1 /\
    calculate_health 0 (utc_midnight day_2024_01_01) 0.0495
      (Some (utc_midnight (day_2024_01_01 + 30))) 1 = Ok h2 /\
    h2 <= h1.
Proof.
  apply calculate_health_rate_order.
  - apply utc_midnight_aware.
  - lra.
  - lra.
  - lra.
Defined.

(** X24: [get_settings()] is a write-once singleton: whatever the
    environment holds at later calls, every call returns the settings the
    first call loaded, or the cached ones if the cache was filled already. *)
Theorem get_settings_write_once (cache : option Settings) (first : Settings)
    (later : list Settings) :
  GardenSpec.settings_seen cache (first :: later) =
  repeat (default first cache) (S (length later)).
Proof.
  assert (Hcached : forall (s : Settings) (loads : list Settings),
            GardenSpec.settings_seen (Some s) loads = repeat s (length loads)).
  { intros s loads. induction loads as [ | l loads IH]; [reflexivity | ].
    cbn. now rewrite IH. }
  destruct cache as [s | ]; cbn; now rewrite Hcached.
Qed.
